(** * toHex.py: a two-pass assembler for an 8-bit instruction word

    The source is one Python module, [src/toHex.py]: a line parser
    ([parse_assembly]), an instruction encoder
    ([translate_to_machine_code]), a binary-to-hexadecimal codec
    ([convert_binary_to_hex]) and the script body that chains them.

    Python strings are modelled as [string], for text in the ASCII range:
    the whitespace of [str.strip] and [str.split] and the letters of
    [str.upper] are those below code point 128, and a character above is
    taken as one that is neither. A Python [dict] keyed by strings is a
    [gmap string _]; a Python [list] is a [list]; a Python [int] is a [nat]
    where it counts and a [Z] where it is parsed. An exception is a value of
    [exn], and code that can raise returns a [result]: a list subscript is an
    operation that can raise, also where the surrounding code makes sure it
    does not. *)

From Stdlib Require Import ZArith NArith Ascii.
From stdpp Require Import gmap strings list fin_maps.

(** ** Exceptions *)

(** The [ValueError]s of the module, one constructor per [raise] statement
    (the arguments are the values interpolated in the message), the
    [ValueError] of the builtin [int], and the [IndexError] of a list
    subscript out of range. *)
Inductive exn : Type :=
| UnknownMnemonic (mnemonic : string)
    (* "Unknown mnemonic: {mnemonic}" *)
| UnknownRegister (reg mnemonic : string)
    (* "Unknown register: {reg} in {mnemonic} instruction" *)
| UnknownRegisterIn (mnemonic operands : string)
    (* "Unknown register in {mnemonic} instruction: {operands}" *)
| UnknownPort (port mnemonic : string)
    (* "Unknown port: {port} in {mnemonic} instruction" *)
| BadImmediate (imm : string)
    (* "Immediate value '{imm}' for LDI must be 2-bit binary ..." *)
| UndefinedLabel (target_label mnemonic : string)
    (* "Undefined label: {target_label} in {mnemonic} instruction" *)
| UnhandledFormat (fmt mnemonic : string)
    (* "Unhandled format '{fmt}' for mnemonic: {mnemonic}" *)
| NotEightBits (binary_str : string)
    (* "Binary string '{binary_str}' is not 8 bits long." *)
| InvalidLiteral (base : N) (s : string)
    (* int(): "invalid literal for int() with base {base}: {s!r}" *)
| IndexError.
    (* "list index out of range" *)

Inductive result (A : Type) : Type :=
| Ok (a : A)
| Raise (e : exn).
Arguments Ok {A} a.
Arguments Raise {A} e.

Definition bind {A B : Type} (r : result A) (k : A → result B) : result B :=
  match r with
  | Ok a => k a
  | Raise e => Raise e
  end.

Notation "'let*' x ':=' r 'in' k" := (bind r (fun x => k))
  (at level 10, x name, r at level 100, k at level 200).

(** ** The Python string and integer builtins the module calls *)

Module Py.

Local Open Scope char_scope.

(** [str.isspace] on one character: TAB, LF, VT, FF, CR, the separators
    FS GS RS US, and the space. *)
Definition isspace (c : ascii) : bool :=
  let n := N_of_ascii c in
  ((9 <=? n) && (n <=? 13) || (28 <=? n) && (n <=? 32))%N.

Fixpoint lstrip (s : string) : string :=
  match s with
  | String c s' => if isspace c then lstrip s' else s
  | EmptyString => EmptyString
  end.

Fixpoint rstrip (s : string) : string :=
  match s with
  | String c s' =>
      match rstrip s' with
      | EmptyString => if isspace c then EmptyString else String c EmptyString
      | r => String c r
      end
  | EmptyString => EmptyString
  end.

(** [s.strip()] *)
Definition strip (s : string) : string := rstrip (lstrip s).

(** [not s] *)
Definition is_empty (s : string) : bool :=
  match s with EmptyString => true | String _ _ => false end.

(** [c in s] for a one-character [c] *)
Fixpoint contains (c : ascii) (s : string) : bool :=
  match s with
  | String d s' => Ascii.eqb d c || contains c s'
  | EmptyString => false
  end.

(** [s.startswith(p)] *)
Definition startswith (s p : string) : bool := String.prefix p s.

(** The piece of [s] before the first [sep], and the pieces after it. *)
Fixpoint split_from (sep : ascii) (s : string) : string * list string :=
  match s with
  | String c s' =>
      let '(piece, pieces) := split_from sep s' in
      if Ascii.eqb c sep then (EmptyString, piece :: pieces)
      else (String c piece, pieces)
  | EmptyString => (EmptyString, [])
  end.

(** [s.split(sep)] for a one-character [sep]: never the empty list. *)
Definition split (sep : ascii) (s : string) : list string :=
  let '(piece, pieces) := split_from sep s in piece :: pieces.

(** [s.split(sep, 1)]: at most one cut, at the first [sep]. *)
Fixpoint split_once (sep : ascii) (s : string) : list string :=
  match s with
  | String c s' =>
      if Ascii.eqb c sep then [EmptyString; s']
      else match split_once sep s' with
           | piece :: pieces => String c piece :: pieces
           | [] => [String c EmptyString]
           end
  | EmptyString => [EmptyString]
  end.

(** The longest prefix of [s] without whitespace, and what follows it. *)
Fixpoint token (s : string) : string * string :=
  match s with
  | String c s' =>
      if isspace c then (EmptyString, s)
      else let '(tok, rest) := token s' in (String c tok, rest)
  | EmptyString => (EmptyString, EmptyString)
  end.

(** [s.split(maxsplit=1)]: leading whitespace is skipped; nothing is left
    gives the empty list; otherwise the first token, and, when something
    other than whitespace follows it, the remainder from its first
    non-blank character to the end of [s]. *)
Definition split_maxsplit1 (s : string) : list string :=
  match lstrip s with
  | EmptyString => []
  | s1 =>
      let '(tok, rest) := token s1 in
      match lstrip rest with
      | EmptyString => [tok]
      | remainder => [tok; remainder]
      end
  end.

Definition upper_char (c : ascii) : ascii :=
  let n := N_of_ascii c in
  if ((97 <=? n) && (n <=? 122))%N then ascii_of_N (n - 32) else c.

(** [s.upper()] *)
Fixpoint upper (s : string) : string :=
  match s with
  | String c s' => String (upper_char c) (upper s')
  | EmptyString => EmptyString
  end.

(** [s.replace(c, "")] for a one-character [c] *)
Fixpoint remove (c : ascii) (s : string) : string :=
  match s with
  | String d s' => if Ascii.eqb d c then remove c s' else String d (remove c s')
  | EmptyString => EmptyString
  end.

(** [l[i]] *)
Definition getitem {A : Type} (l : list A) (i : nat) : result A :=
  match l !! i with
  | Some x => Ok x
  | None => Raise IndexError
  end.

(** [re.fullmatch(r'[01]{2}', s)] as a truth value *)
Definition fullmatch_01_2 (s : string) : bool :=
  match s with
  | String a (String b EmptyString) =>
      (Ascii.eqb a "0" || Ascii.eqb a "1") && (Ascii.eqb b "0" || Ascii.eqb b "1")
  | _ => false
  end.

(** *** [format(n, '04b')] and [format(n, '02X')] *)

Fixpoint bin_pos (p : positive) : string :=
  match p with
  | xH => "1"
  | xO q => bin_pos q +:+ "0"
  | xI q => bin_pos q +:+ "1"
  end.

Definition bin (n : N) : string :=
  match n with
  | N0 => "0"
  | Npos p => bin_pos p
  end.

Fixpoint zeros (k : nat) : string :=
  match k with
  | O => EmptyString
  | S k' => String "0" (zeros k')
  end.

(** Zero fill on the left up to [width] characters. *)
Definition zfill (width : nat) (digits : string) : string :=
  zeros (width - String.length digits) +:+ digits.

Definition format_04b (n : nat) : string := zfill 4 (bin (N.of_nat n)).

Definition hex_digit (d : N) : ascii :=
  if (d <? 10)%N then ascii_of_N (48 + d) else ascii_of_N (55 + d).

Fixpoint hex_from (fuel : nat) (n : N) (acc : string) : string :=
  match fuel with
  | O => acc
  | S fuel' =>
      let acc' := String (hex_digit (n mod 16)) acc in
      if (n / 16 =? 0)%N then acc' else hex_from fuel' (n / 16)%N acc'
  end.

(** The upper-case hexadecimal digits of [n]; a number of [b] bits has at
    most [b] of them. *)
Definition hex (n : N) : string := hex_from (S (N.size_nat n)) n EmptyString.

(** For a negative number the sign takes one of the two columns. *)
Definition format_02X (v : Z) : string :=
  if (v <? 0)%Z then String "-" (zfill 1 (hex (Z.abs_N v)))
  else zfill 2 (hex (Z.abs_N v)).

(** *** [int(s, base)] for a base that is a power of two *)

(** The whitespace [int] skips in an ASCII string (C's [isspace]). *)
Definition isspace_c (c : ascii) : bool :=
  let n := N_of_ascii c in
  ((9 <=? n) && (n <=? 13) || (n =? 32))%N.

Fixpoint lstrip_c (s : string) : string :=
  match s with
  | String c s' => if isspace_c c then lstrip_c s' else s
  | EmptyString => EmptyString
  end.

Definition digit_value (c : ascii) : option N :=
  let n := N_of_ascii c in
  if ((48 <=? n) && (n <=? 57))%N then Some (n - 48)%N
  else if ((97 <=? n) && (n <=? 122))%N then Some (n - 87)%N
  else if ((65 <=? n) && (n <=? 90))%N then Some (n - 55)%N
  else None.

(** Digits below [base], with single underscores between them; the scan
    stops at the first other character. Two underscores in a row, or an
    underscore at the end of the digits, is an error. *)
Fixpoint scan_digits (base : N) (s : string) (after_underscore : bool) (acc : N)
  : option (N * string) :=
  match s with
  | String c s' =>
      if Ascii.eqb c "_" then
        if after_underscore then None else scan_digits base s' true acc
      else
        match digit_value c with
        | Some d =>
            if (d <? base)%N then scan_digits base s' false (acc * base + d)%N
            else if after_underscore then None else Some (acc, s)
        | None => if after_underscore then None else Some (acc, s)
        end
  | EmptyString => if after_underscore then None else Some (acc, s)
  end.

Definition base_letter (base : N) (c : ascii) : bool :=
  ((base =? 2)%N && (Ascii.eqb c "b" || Ascii.eqb c "B"))
  || ((base =? 8)%N && (Ascii.eqb c "o" || Ascii.eqb c "O"))
  || ((base =? 16)%N && (Ascii.eqb c "x" || Ascii.eqb c "X")).

(** Skips the base prefix, and one underscore after it. *)
Definition skip_prefix (base : N) (s : string) : string :=
  match s with
  | String "0" (String c s') =>
      if base_letter base c then
        match s' with
        | String "_" s'' => s''
        | _ => s'
        end
      else s
  | _ => s
  end.

Definition int (s : string) (base : N) : result Z :=
  let s0 := lstrip_c s in
  let '(negative, s1) :=
    match s0 with
    | String "+" r => (false, r)
    | String "-" r => (true, r)
    | _ => (false, s0)
    end in
  let s2 := skip_prefix base s1 in
  match s2 with
  | String "_" _ => Raise (InvalidLiteral base s)
  | _ =>
      match scan_digits base s2 false 0%N with
      | None => Raise (InvalidLiteral base s)
      | Some (v, rest) =>
          if Nat.eqb (String.length rest) (String.length s2) then Raise (InvalidLiteral base s)
          else if is_empty (lstrip_c rest)
               then Ok (if negative then (- Z.of_N v)%Z else Z.of_N v)
               else Raise (InvalidLiteral base s)
      end
  end.

End Py.

(** ** The static tables (lines 12-41) *)

Record opcode_info : Type := { opcode : string; format : string }.

Definition INSTRUCTION_SET : gmap string opcode_info :=
  list_to_map
    [ ("NOP", {| opcode := "0000"; format := "" |});
      ("HLT", {| opcode := "0001"; format := "" |});
      ("IN",  {| opcode := "0010"; format := "reg_port" |});
      ("OUT", {| opcode := "0011"; format := "reg_port" |});
      ("MOV", {| opcode := "0100"; format := "reg_reg" |});
      ("LDI", {| opcode := "0101"; format := "reg_imm2" |});
      ("ADD", {| opcode := "0110"; format := "reg_reg" |});
      ("SUB", {| opcode := "0111"; format := "reg_reg" |});
      ("DEC", {| opcode := "1000"; format := "reg" |});
      ("JMP", {| opcode := "1001"; format := "address" |});
      ("JZ",  {| opcode := "1010"; format := "address" |}) ].

Definition REGISTERS : gmap string string :=
  list_to_map [ ("R0", "00"); ("R1", "01"); ("R2", "10"); ("R3", "11") ].

Definition PORTS : gmap string string :=
  list_to_map
    [ ("LIGHT_PORT", "00"); ("MOTION_PORT", "01");
      ("DUMMY_PORT_A", "10"); ("DUMMY_PORT_B", "11") ].

(** ** The line parser (lines 111-147) *)

(** One entry of [parsed_lines]: the dict with the keys "address",
    "mnemonic" and "operands". *)
Record instruction_data : Type :=
  { address : nat; mnemonic : string; operands : string }.

(** The variables the loop of [parse_assembly] updates. *)
Record parse_state : Type :=
  { parsed_lines : list instruction_data;
    labels : gmap string string;
    current_address : nat }.

Definition parse_start : parse_state :=
  {| parsed_lines := []; labels := ∅; current_address := 0 |}.

(** The body of the [for line in lines] loop; [continue] returns the state
    as it is at that point. *)
Definition parse_line (line : string) (st : parse_state) : result parse_state :=
  let line := Py.strip line in
  if Py.is_empty line || Py.startswith line ";" || Py.startswith line ".EQU" then Ok st
  else
    let* before_comment := Py.getitem (Py.split ";" line) 0 in
    let line := Py.strip before_comment in
    let* after_label :=
      if Py.contains ":" line then
        let* name := Py.getitem (Py.split ":" line) 0 in
        let label := Py.strip name in
        let labels' := <[label := Py.format_04b (current_address st)]> (labels st) in
        let* after := Py.getitem (Py.split_once ":" line) 1 in
        Ok (Py.strip after, labels')
      else Ok (line, labels st) in
    let line := after_label.1 in
    let labels' := after_label.2 in
    if Py.is_empty line then
      Ok {| parsed_lines := parsed_lines st; labels := labels';
            current_address := current_address st |}
    else
      let parts := Py.split_maxsplit1 line in
      let* first := Py.getitem parts 0 in
      let mnemonic := Py.upper first in
      let* operands :=
        if 1 <? length parts then Py.getitem parts 1 else Ok ""%string in
      let operands := Py.remove "#" (Py.remove " " operands) in
      Ok {| parsed_lines :=
              parsed_lines st ++
                [ {| address := current_address st; mnemonic := mnemonic;
                     operands := operands |} ];
            labels := labels';
            current_address := current_address st + 1 |}.

Fixpoint parse_lines (lines : list string) (st : parse_state) : result parse_state :=
  match lines with
  | [] => Ok st
  | line :: lines' => let* st' := parse_line line st in parse_lines lines' st'
  end.

(** The lines the loop runs over: [assembly_code.strip().split('\n')]. *)
Definition source_lines (assembly_code : string) : list string :=
  Py.split "010" (Py.strip assembly_code).

Definition parse_assembly (assembly_code : string)
  : result (list instruction_data * gmap string string) :=
  let* st := parse_lines (source_lines assembly_code) parse_start in
  Ok (parsed_lines st, labels st).

(** ** The instruction encoder (lines 149-212) *)

(** The body of the [for instruction_data in parsed_lines] loop, up to the
    word it appends. *)
Definition encode_instruction (labels : gmap string string)
    (instruction : instruction_data) : result string :=
  let mnemonic := mnemonic instruction in
  let operands := operands instruction in
  match INSTRUCTION_SET !! mnemonic with
  | None => Raise (UnknownMnemonic mnemonic)
  | Some opcode_info =>
      let opcode := opcode opcode_info in
      let fmt := format opcode_info in
      let* operand_binary :=
        if String.eqb fmt "" then Ok "0000"%string
        else if String.eqb fmt "reg_port" then
          let parts := Py.split "," operands in
          let* part0 := Py.getitem parts 0 in
          let reg := Py.strip part0 in
          let* part1 := Py.getitem parts 1 in
          let port := Py.strip part1 in
          match REGISTERS !! reg with
          | None => Raise (UnknownRegister reg mnemonic)
          | Some reg_bits =>
              match PORTS !! port with
              | None => Raise (UnknownPort port mnemonic)
              | Some port_bits => Ok (reg_bits +:+ port_bits)
              end
          end
        else if String.eqb fmt "reg_reg" then
          let parts := Py.split "," operands in
          let* part0 := Py.getitem parts 0 in
          let dest_reg := Py.strip part0 in
          let* part1 := Py.getitem parts 1 in
          let src_reg := Py.strip part1 in
          match REGISTERS !! dest_reg, REGISTERS !! src_reg with
          | Some dest_bits, Some src_bits => Ok (dest_bits +:+ src_bits)
          | _, _ => Raise (UnknownRegisterIn mnemonic operands)
          end
        else if String.eqb fmt "reg_imm2" then
          let parts := Py.split "," operands in
          let* part0 := Py.getitem parts 0 in
          let reg := Py.strip part0 in
          let* part1 := Py.getitem parts 1 in
          let imm := Py.strip part1 in
          match REGISTERS !! reg with
          | None => Raise (UnknownRegister reg mnemonic)
          | Some reg_bits =>
              let imm_val := Py.remove "b" imm in
              if negb (Py.fullmatch_01_2 imm_val) then Raise (BadImmediate imm)
              else Ok (reg_bits +:+ imm_val)
          end
        else if String.eqb fmt "reg" then
          let reg := Py.strip operands in
          match REGISTERS !! reg with
          | None => Raise (UnknownRegister reg mnemonic)
          | Some reg_bits => Ok (reg_bits +:+ "00")
          end
        else if String.eqb fmt "address" then
          let target_label := Py.strip operands in
          match labels !! target_label with
          | None => Raise (UndefinedLabel target_label mnemonic)
          | Some address_bits => Ok address_bits
          end
        else Raise (UnhandledFormat fmt mnemonic) in
      Ok (opcode +:+ operand_binary)
  end.

(** The loop itself: the words are appended in order, and the first
    exception leaves the function. *)
Fixpoint translate_from (labels : gmap string string)
    (parsed_lines : list instruction_data) (machine_code_binary : list string)
  : result (list string) :=
  match parsed_lines with
  | [] => Ok machine_code_binary
  | instruction :: rest =>
      let* full_binary_instruction := encode_instruction labels instruction in
      translate_from labels rest (machine_code_binary ++ [full_binary_instruction])
  end.

Definition translate_to_machine_code (parsed_lines : list instruction_data)
    (labels : gmap string string) : result (list string) :=
  translate_from labels parsed_lines [].

(** ** The codec (lines 214-224) *)

Definition hex_of_word (binary_str : string) : result string :=
  if negb (String.length binary_str =? 8) then Raise (NotEightBits binary_str)
  else
    let* value := Py.int binary_str 2 in
    Ok (Py.format_02X value).

Fixpoint convert_from (binary_code_list : list string) (hex_code_list : list string)
  : result (list string) :=
  match binary_code_list with
  | [] => Ok hex_code_list
  | binary_str :: rest =>
      let* hex_val := hex_of_word binary_str in
      convert_from rest (hex_code_list ++ [hex_val])
  end.

Definition convert_binary_to_hex (binary_code_list : list string) : result (list string) :=
  convert_from binary_code_list [].

(** ** The script body (lines 227-253) *)

(** What a complete run has computed: the symbol table, the words, their
    hexadecimal form, and whether the warning about the 16-instruction limit
    was printed. An exception ends the run where it is raised. *)
Record run : Type :=
  { run_labels : gmap string string;
    run_binary : list string;
    run_hex : list string;
    run_warning : bool }.

Definition main (assembly_code : string) : result run :=
  let* parsed := parse_assembly assembly_code in
  let parsed_instructions := parsed.1 in
  let labels := parsed.2 in
  let* machine_code_binary := translate_to_machine_code parsed_instructions labels in
  let* hex_machine_code := convert_binary_to_hex machine_code_binary in
  Ok {| run_labels := labels;
        run_binary := machine_code_binary;
        run_hex := hex_machine_code;
        run_warning := 16 <? length hex_machine_code |}.

(** ** Observations on the parser *)

(** The text of a source line once its comment is cut, as the loop body
    computes it; [None] for a line the loop skips at its first test. *)
Definition line_body (line : string) : option string :=
  let line := Py.strip line in
  if Py.is_empty line || Py.startswith line ";" || Py.startswith line ".EQU" then None
  else Some (Py.strip (Py.split_from ";" line).1).

(** The key under which a source line stores the current address in
    [labels], if it stores one. *)
Definition line_label (line : string) : option string :=
  match line_body line with
  | Some body =>
      if Py.contains ":" body then Some (Py.strip (Py.split_from ":" body).1) else None
  | None => None
  end.

(** Some line of the program stores [L] in the symbol table, and the address
    counter is [A] when the loop reaches that line. *)
Definition defined_at (assembly_code L : string) (A : nat) : Prop :=
  ∃ before line after st,
    source_lines assembly_code = before ++ line :: after ∧
    parse_lines before parse_start = Ok st ∧
    current_address st = A ∧
    line_label line = Some L.

(** The same, for the last line of the program that stores [L]. *)
Definition last_defined_at (assembly_code L : string) (A : nat) : Prop :=
  ∃ before line after st,
    source_lines assembly_code = before ++ line :: after ∧
    parse_lines before parse_start = Ok st ∧
    current_address st = A ∧
    line_label line = Some L ∧
    ∀ later, later ∈ after → line_label later ≠ Some L.

Definition bit_char (b : bool) : ascii := if b then "1"%char else "0"%char.

(** The 4-bit binary representation of a number, most significant bit
    first. *)
Definition bits4 (n : nat) : string :=
  String (bit_char (Nat.testbit n 3))
    (String (bit_char (Nat.testbit n 2))
      (String (bit_char (Nat.testbit n 1))
        (String (bit_char (Nat.testbit n 0)) EmptyString))).

(** The counter is the number of records emitted so far, and the record at
    position [i] carries the address [i]. *)
Definition numbered (st : parse_state) : Prop :=
  current_address st = length (parsed_lines st) ∧
  ∀ i r, parsed_lines st !! i = Some r → address r = i.

(** A name that differs from a key of [table] by the case of its letters
    only: upper-casing changes it, and gives a key. *)
Definition case_variant (table : gmap string string) (name : string) : Prop :=
  name ≠ Py.upper name ∧ is_Some (table !! Py.upper name).

(** ** Sample programs *)

(** The text made of the given lines, one per line. *)
Fixpoint unlines (lines : list string) : string :=
  match lines with
  | [] => EmptyString
  | [line] => line
  | line :: lines' => line +:+ String "010"%char (unlines lines')
  end.

(** ** The program of the module (lines 46-109) *)

(** The text between the triple quotes; it starts and ends with a line
    break. *)
Definition ASSEMBLY_CODE : string :=
  unlines
    [ "";
      "; *****************************************************************************";
      "; PROGRAM: Motion Sensor Light Control (Strictly 4-bit PC & 2-bit Imm/Port)";
      "; DESCRIPTION: Detects motion, turns on LED, counts down max 3 seconds, turns off.";
      ";              - Uses DEC for countdown.";
      ";              - No motion re-detection during countdown.";
      ";              - Port addresses are 2-bit (00-11).";
      ";              - LDI immediate values are 2-bit (0-3).";
      "; *****************************************************************************";
      "";
      "; --- I/O Port Definitions (2-bit addresses for IN/OUT) ---";
      ".EQU LIGHT_PORT,         00b  ; Output port for the LED";
      ".EQU MOTION_PORT,        01b  ; Input port for the motion sensor";
      "; Note: LOAD_CNT_U_PORT, LOAD_CNT_T_PORT, ENABLE_CNT_PORT, TIMER_ZERO_FLAG_PORT";
      "; are not directly addressable with distinct 2-bit port addresses with this ISA.";
      "";
      "; --- Register Definitions (2-bit encoding) ---";
      ".EQU R0, 00b ; General purpose register";
      ".EQU R1, 01b ; General purpose register";
      ".EQU R2, 10b ; General purpose register";
      ".EQU R3, 11b ; General purpose register";
      "";
      "; --- Program Code (15 instructions, fits 4-bit PC) ---";
      "; Machine Code Format: [Opcode (4-bit)][Operand (4-bit)]";
      "";
      "; Memory Address: 0000b (0x0)";
      "START:";
      "    ; Initialize System: Turn off light";
      "    LDI R0, #00b              ; R0 = 0 (Value for OFF, 2-bit immediate)";
      "    OUT R0, LIGHT_PORT        ; Turn OFF Light (Port 00b)";
      "";
      "; Memory Address: 0010b (0x2)";
      "WAIT_MOTION:";
      "    ; Monitor Motion Sensor: Loop until motion is detected";
      "    IN R1, MOTION_PORT        ; Read motion sensor status into R1 (Port 01b)";
      "    MOV R0, R1                ; Copy R1 to R0. (R0 will hold motion status)";
      "    SUB R0, R0                ; R0 = R0 - R0. If R0 (motion) was 0, Z_flag is set.";
      "    JZ WAIT_MOTION            ; If Z_flag is set (no motion), loop back";
      "";
      "; Memory Address: 0110b (0x6)";
      "MOTION_DETECTED:";
      "    ; Motion Detected: Load delay value, turn on light";
      "    LDI R2, #01b              ; R2 = 1 (Example delay value, max 3 seconds due to 2-bit immediate)";
      "                              ; This sets a delay of 1 'tick'. Each tick is one DEC instruction.";
      "    LDI R0, #01b              ; R0 = 1 (Value for ON, 2-bit immediate)";
      "    OUT R0, LIGHT_PORT        ; Turn ON Light (Port 00b)";
      "";
      "; Memory Address: 1000b (0x8)";
      "COUNTDOWN_LOOP:";
      "    ; Countdown Delay";
      "    DEC R2                    ; Decrement R2 (delay register). Sets Z_flag if R2 becomes 0.";
      "    JZ LIGHT_OFF              ; If Z_flag is set (delay expired), jump to turn off light";
      "    JMP COUNTDOWN_LOOP        ; Else, continue countdown";
      "";
      "; Memory Address: 1100b (0xC)";
      "LIGHT_OFF:";
      "    ; Delay Expired: Turn off light";
      "    LDI R0, #00b              ; R0 = 0 (Value for OFF, 2-bit immediate)";
      "    OUT R0, LIGHT_PORT        ; Turn OFF Light (Port 00b)";
      "    JMP START                 ; Go back to initial state (waiting for motion)";
      "";
      "; Total Instructions: 15";
      "; This program fits within the 16-instruction limit of a 4-bit PC.";
      "" ].

(** A forward and a backward reference to each of two labels. *)
Definition jumps_program : string :=
  unlines [ "JMP END"; "START: NOP"; "END: JZ START"; "JMP END" ].

(** The label [A] is defined twice. *)
Definition redefinition_program : string :=
  unlines [ "A: NOP"; "A: JMP A" ].

(** ** Kinds of failure *)

(** The failures the encoder reports by a [raise] statement of its own. *)
Definition reportable (e : exn) : bool :=
  match e with
  | UnknownMnemonic _ | UnknownRegister _ _ | UnknownRegisterIn _ _
  | UnknownPort _ _ | BadImmediate _ | UndefinedLabel _ _
  | UnhandledFormat _ _ => true
  | NotEightBits _ | InvalidLiteral _ _ | IndexError => false
  end.

(** The formats whose operand text is cut at a comma. *)
Definition two_operands (fmt : string) : bool :=
  String.eqb fmt "reg_port" || String.eqb fmt "reg_reg" || String.eqb fmt "reg_imm2".

(** ** The immediate token as the specification words it *)

(** The treatment the specification describes for the immediate token: an
    optional trailing radix marker is stripped, that is, one [b] is dropped
    when the token ends with it. It is compared below with what the encoder
    does, [Py.remove "b"]. *)
Fixpoint spec_strip_trailing_marker (tok : string) : string :=
  match tok with
  | String c EmptyString => if Ascii.eqb c "b" then EmptyString else tok
  | String c tok' => String c (spec_strip_trailing_marker tok')
  | EmptyString => EmptyString
  end.

(** A program of [n] instructions without operands. *)
Definition nops (n : nat) : string := unlines (replicate n "NOP").

(** Sixteen instructions, then a jump to a label defined on its own line,
    at address 16. *)
Definition overflow_program : string :=
  unlines (replicate 16 "NOP" ++ [ "L: JMP L" ]).

(** ** Decoding *)

(** Modelled from the spec: the decoding direction of the codec, which the
    source does not contain. The specification speaks of parsing a rendered
    two-digit hex string back to an integer; this is Python's [int(s, 16)]. *)
Definition hex_decode (s : string) : result Z := Py.int s 16.

Definition upper_hex_digit (c : ascii) : bool :=
  let n := N_of_ascii c in
  ((48 <=? n) && (n <=? 57) || (65 <=? n) && (n <=? 70))%N.

(** The round trip of one number, as a test that can be run. *)
Definition roundtrip_test (k : nat) : bool :=
  match Py.format_02X (Z.of_nat k) with
  | String a (String b EmptyString) =>
      upper_hex_digit a && upper_hex_digit b &&
      match hex_decode (Py.format_02X (Z.of_nat k)) with
      | Ok v => (v =? Z.of_nat k)%Z
      | Raise _ => false
      end
  | _ => false
  end.

(** ** Words of binary digits *)

Definition binary_digit (c : ascii) : bool :=
  Ascii.eqb c "0" || Ascii.eqb c "1".

Fixpoint all_binary (s : string) : bool :=
  match s with
  | String c s' => binary_digit c && all_binary s'
  | EmptyString => true
  end.

(** The number a string of binary digits denotes, after the digits [acc]
    already read. *)
Fixpoint binary_value (s : string) (acc : N) : N :=
  match s with
  | String c s' => binary_value s' (2 * acc + (if Ascii.eqb c "1" then 1 else 0))%N
  | EmptyString => acc
  end.

(** ** Further observations *)

(** The sixteen strings of four binary digits. *)
Definition nibbles : list string :=
  [ "0000"; "0001"; "0010"; "0011"; "0100"; "0101"; "0110"; "0111";
    "1000"; "1001"; "1010"; "1011"; "1100"; "1101"; "1110"; "1111" ].

(** The line break. *)
Definition newline : ascii := "010"%char.

Fixpoint all_chars (P : ascii → bool) (s : string) : bool :=
  match s with
  | String c s' => P c && all_chars P s'
  | EmptyString => true
  end.

(** What every record of [parsed_lines] satisfies. *)
Definition clean_record (r : instruction_data) : Prop :=
  mnemonic r ≠ EmptyString ∧
  all_chars (λ c, negb (Py.isspace c)) (mnemonic r) = true ∧
  Py.upper (mnemonic r) = mnemonic r ∧
  Py.contains " " (operands r) = false ∧
  Py.contains "#" (operands r) = false.

(** What every key of [labels] satisfies. *)
Definition clean_label (L : string) : Prop :=
  Py.strip L = L ∧ Py.contains ":" L = false ∧ Py.contains ";" L = false.

(** ** Proof tactics *)

(** Runs the binds whose first computation is a value. *)
Ltac run_bind := cbn [bind fst snd].

(** Goes through the entries of a table, one goal per entry. *)
Ltac entries H :=
  repeat (apply elem_of_cons in H as [H | H]; [simplify_eq H; intros; subst |]);
  try (apply elem_of_nil in H; destruct H).

(** Goes through the members of a list of strings, one goal per member. *)
Ltac members H :=
  repeat (apply elem_of_cons in H as [H | H]; [subst |]);
  try (apply elem_of_nil in H; destruct H).

(** * Properties *)

(** ** The error monad *)

Lemma bind_Ok {A B : Type} (r : result A) (k : A → result B) (b : B) :
  bind r k = Ok b ↔ ∃ a, r = Ok a ∧ k a = Ok b.
Proof.
  destruct r as [a|e]; simpl; split.
  - intros H. exists a. auto.
  - intros (a' & [= <-] & H). exact H.
  - discriminate.
  - intros (a' & [=] & _).
Qed.

(** ** Stripping and splitting *)

Section strings.
Import Py.

Lemma lstrip_head s c t : lstrip s = String c t → isspace c = false.
Proof.
  induction s as [|d s IH]; simpl; [discriminate|].
  destruct (isspace d) eqn:Hd; [exact IH|].
  intros [= <- _]. exact Hd.
Qed.

Lemma lstrip_fixed c t : isspace c = false → lstrip (String c t) = String c t.
Proof. intros H. simpl. by rewrite H. Qed.

Lemma rstrip_cons c t : isspace c = false → rstrip (String c t) = String c (rstrip t).
Proof. intros H. simpl. destruct (rstrip t); [by rewrite H | done]. Qed.

Lemma rstrip_idem s : rstrip (rstrip s) = rstrip s.
Proof.
  induction s as [|c s IH]; simpl; [done|].
  destruct (rstrip s) as [|d r] eqn:Hr.
  - destruct (isspace c) eqn:Hc; simpl; [done | by rewrite Hc].
  - change (rstrip (String c (String d r))) with
      (match rstrip (String d r) with
       | EmptyString => if isspace c then EmptyString else String c EmptyString
       | r' => String c r'
       end).
    by rewrite IH.
Qed.

(** A stripped string is empty or starts with a character that is not
    whitespace. *)
Lemma strip_head s c t : strip s = String c t → isspace c = false.
Proof.
  unfold strip. destruct (lstrip s) as [|d u] eqn:Hl; simpl; [discriminate|].
  pose proof (lstrip_head _ _ _ Hl) as Hd.
  destruct (rstrip u); rewrite ?Hd; intros [= <- _]; exact Hd.
Qed.

Lemma strip_idem s : strip (strip s) = strip s.
Proof.
  unfold strip. destruct (lstrip s) as [|d u] eqn:Hl; [done|].
  pose proof (lstrip_head _ _ _ Hl) as Hd.
  rewrite (rstrip_cons _ _ Hd), (lstrip_fixed _ _ Hd), <- (rstrip_cons _ _ Hd).
  apply rstrip_idem.
Qed.

Lemma getitem_split_0 sep s : getitem (split sep s) 0 = Ok (split_from sep s).1.
Proof. unfold split. by destruct (split_from sep s). Qed.

Lemma split_once_shape sep s :
  ∃ piece pieces, split_once sep s = piece :: pieces.
Proof.
  induction s as [|c s (p & ps & IH)]; simpl; [by eauto|].
  destruct (Ascii.eqb c sep); [by eauto|]. rewrite IH. eauto.
Qed.

(** When the separator occurs, [split(sep, 1)] has a second element. *)
Lemma getitem_split_once_1 sep s :
  contains sep s = true → ∃ after, getitem (split_once sep s) 1 = Ok after.
Proof.
  induction s as [|c s IH]; simpl; [discriminate|].
  destruct (Ascii.eqb c sep); simpl.
  - intros _. by eexists.
  - intros H. destruct (IH H) as [after Ha].
    destruct (split_once sep s) as [|p [|q ps]]; try discriminate Ha.
    exists after. exact Ha.
Qed.

(** On a string that starts with a character other than whitespace,
    [split(maxsplit=1)] returns one or two parts. *)
Lemma split_maxsplit1_shape c t :
  isspace c = false →
  ∃ tok, split_maxsplit1 (String c t) = [tok]
         ∨ ∃ remainder, split_maxsplit1 (String c t) = [tok; remainder].
Proof.
  intros Hc. unfold split_maxsplit1. rewrite (lstrip_fixed _ _ Hc).
  destruct (token (String c t)) as [tok rest].
  exists tok. destruct (lstrip rest); eauto.
Qed.

Lemma upper_char_idem c : upper_char (upper_char c) = upper_char c.
Proof. by destruct c as [[] [] [] [] [] [] [] []]. Qed.

Lemma upper_idem s : upper (upper s) = upper s.
Proof. induction s as [|c s IH]; simpl; [done|]. by rewrite upper_char_idem, IH. Qed.

End strings.

(** ** The line parser *)

(** What one turn of the loop does to the state: it never raises; it stores
    the line's label, if it has one, under the current address; and it either
    leaves the records and the counter alone or appends one record carrying
    the current address and advances the counter by one. *)
Lemma parse_line_spec line st :
  ∃ st', parse_line line st = Ok st' ∧
    labels st' =
      match line_label line with
      | Some L => <[L := Py.format_04b (current_address st)]> (labels st)
      | None => labels st
      end ∧
    ((parsed_lines st' = parsed_lines st ∧ current_address st' = current_address st)
     ∨ ∃ tok ops,
         parsed_lines st' =
           parsed_lines st ++
             [ {| address := current_address st; mnemonic := Py.upper tok;
                  operands := ops |} ] ∧
         current_address st' = current_address st + 1).
Proof.
  unfold parse_line, line_label, line_body.
  destruct (Py.is_empty (Py.strip line) || Py.startswith (Py.strip line) ";"
            || Py.startswith (Py.strip line) ".EQU").
  { exists st. auto. }
  rewrite getitem_split_0. run_bind.
  set (body := Py.strip (Py.split_from ";" (Py.strip line)).1).
  assert (Hrest : ∀ rest labels',
    (∃ x, rest = Py.strip x) →
    ∃ st',
      (if Py.is_empty rest
       then Ok {| parsed_lines := parsed_lines st; labels := labels';
                  current_address := current_address st |}
       else
         let* first := Py.getitem (Py.split_maxsplit1 rest) 0 in
         let* operands :=
           if 1 <? length (Py.split_maxsplit1 rest)
           then Py.getitem (Py.split_maxsplit1 rest) 1 else Ok ""%string in
         Ok {| parsed_lines :=
                 parsed_lines st ++
                   [ {| address := current_address st; mnemonic := Py.upper first;
                        operands := Py.remove "#" (Py.remove " " operands) |} ];
               labels := labels';
               current_address := current_address st + 1 |}) = Ok st' ∧
      labels st' = labels' ∧
      ((parsed_lines st' = parsed_lines st ∧ current_address st' = current_address st)
       ∨ ∃ tok ops,
           parsed_lines st' =
             parsed_lines st ++
               [ {| address := current_address st; mnemonic := Py.upper tok;
                    operands := ops |} ] ∧
           current_address st' = current_address st + 1)).
  { intros rest labels' [x ->].
    destruct (Py.strip x) as [|c t] eqn:Hx; simpl Py.is_empty; cbv iota.
    - eexists. split; [reflexivity|]. simpl. auto.
    - pose proof (strip_head _ _ _ Hx) as Hc.
      destruct (split_maxsplit1_shape c t Hc) as [tok [-> | [remainder ->]]];
        run_bind; simpl; eexists; (split; [reflexivity|]); simpl;
        (split; [done | right; eauto]). }
  destruct (Py.contains ":" body) eqn:Hcolon.
  - rewrite getitem_split_0. run_bind.
    destruct (getitem_split_once_1 _ _ Hcolon) as [after ->]. run_bind.
    apply Hrest. by eexists.
  - run_bind. apply Hrest. by eexists.
Qed.

Lemma parse_lines_total lines st : ∃ st', parse_lines lines st = Ok st'.
Proof.
  revert st. induction lines as [|line lines IH]; intros st; simpl; [by eexists|].
  destruct (parse_line_spec line st) as (st1 & -> & _). run_bind. apply IH.
Qed.

Lemma parse_lines_app lines1 lines2 st :
  parse_lines (lines1 ++ lines2) st =
  let* st' := parse_lines lines1 st in parse_lines lines2 st'.
Proof.
  revert st. induction lines1 as [|line lines1 IH]; intros st; simpl; [done|].
  destruct (parse_line line st) as [st1|e]; run_bind; [apply IH | done].
Qed.

Lemma numbered_start : numbered parse_start.
Proof. split; [done|]. intros i r. simpl. by rewrite lookup_nil. Qed.

Lemma parse_line_numbered line st st' :
  numbered st → parse_line line st = Ok st' → numbered st'.
Proof.
  intros [Hlen Hadr] Hp.
  destruct (parse_line_spec line st) as (st1 & Hp1 & _ & Hrec).
  rewrite Hp in Hp1. injection Hp1 as <-.
  destruct Hrec as [[Hrecs Hcur] | (tok & ops & Hrecs & Hcur)];
    split; rewrite Hrecs, ?Hcur; auto.
  - rewrite length_app. simpl. lia.
  - intros i r Hi. apply lookup_app_Some in Hi as [Hi | [Hge Hi]]; [by apply Hadr|].
    apply list_lookup_singleton_Some in Hi as [Hi <-]. simpl. lia.
Qed.

Lemma parse_lines_numbered lines st st' :
  numbered st → parse_lines lines st = Ok st' → numbered st'.
Proof.
  revert st. induction lines as [|line lines IH]; intros st Hn; simpl.
  - by intros [= <-].
  - intros H. apply bind_Ok in H as (st1 & H1 & H2).
    eapply IH; [|exact H2]. by eapply parse_line_numbered.
Qed.

(** The lines that do not store [L] leave its entry alone. *)
Lemma parse_lines_labels_other lines st st' L :
  (∀ line, line ∈ lines → line_label line ≠ Some L) →
  parse_lines lines st = Ok st' →
  labels st' !! L = labels st !! L.
Proof.
  revert st. induction lines as [|line lines IH]; intros st Hother; simpl.
  - by intros [= <-].
  - intros H. apply bind_Ok in H as (st1 & H1 & H2).
    rewrite (IH st1); [|by intros l Hl; apply Hother; right | exact H2].
    destruct (parse_line_spec line st) as (st1' & Hp & Hlab & _).
    rewrite H1 in Hp. injection Hp as <-. rewrite Hlab.
    pose proof (Hother line ltac:(left)) as Hne.
    destruct (line_label line) as [L'|]; [|done].
    apply lookup_insert_ne. congruence.
Qed.

(** A line that stores [L] stores the current address. *)
Lemma parse_line_labels_here line st st' L :
  line_label line = Some L →
  parse_line line st = Ok st' →
  labels st' !! L = Some (Py.format_04b (current_address st)).
Proof.
  intros HL H. destruct (parse_line_spec line st) as (st1 & Hp & Hlab & _).
  rewrite H in Hp. injection Hp as <-. rewrite Hlab, HL. apply lookup_insert_eq.
Qed.

(** What the symbol table holds for a label after the whole parse: the
    address counter at the last line that stores it. *)
Lemma last_defined_at_lookup assembly_code L A parsed :
  last_defined_at assembly_code L A →
  parse_assembly assembly_code = Ok parsed →
  parsed.2 !! L = Some (Py.format_04b A).
Proof.
  intros (before & line & after & st & Hsrc & Hbefore & HA & HL & Hlast) Hparse.
  unfold parse_assembly in Hparse. rewrite Hsrc, parse_lines_app, Hbefore in Hparse.
  run_bind. simpl in Hparse.
  apply bind_Ok in Hparse as (st2 & H2 & [= <-]).
  apply bind_Ok in H2 as (st1 & H1 & H2). simpl.
  rewrite (parse_lines_labels_other _ _ _ _ Hlast H2), <- HA.
  by eapply parse_line_labels_here.
Qed.

Lemma format_04b_bits4 A : A < 16 → Py.format_04b A = bits4 A.
Proof.
  intros H. do 16 (destruct A as [|A]; [reflexivity|]). lia.
Qed.

Lemma line_label_stripped line L : line_label line = Some L → Py.strip L = L.
Proof.
  unfold line_label. destruct (line_body line) as [body|]; [|discriminate].
  destruct (Py.contains ":" body); [|discriminate].
  intros [= <-]. apply strip_idem.
Qed.

(** Claim C8. The line parser is total: on every input text
    [parse_assembly] returns a list of records and a symbol table, it never
    raises; and the record at position [i] of the list carries the address
    [i], the counter starting at 0 and advancing by one per emitted record
    only. *)
Theorem parse_assembly_total_and_numbered (assembly_code : string) :
  ∃ parsed_instructions symbols,
    parse_assembly assembly_code = Ok (parsed_instructions, symbols) ∧
    ∀ i r, parsed_instructions !! i = Some r → address r = i.
Proof.
  unfold parse_assembly.
  destruct (parse_lines_total (source_lines assembly_code) parse_start) as [st Hst].
  rewrite Hst. run_bind. eexists _, _. split; [reflexivity|].
  by apply (parse_lines_numbered _ _ _ numbered_start Hst).
Qed.

Lemma parse_assembly_total_and_numbered_witness :
  ∃ parsed_instructions symbols,
    parse_assembly (unlines [ "a:b:c ; stray"; ":"; "; comment"; ".EQU R0, 00b"; "x: nop" ])
      = Ok (parsed_instructions, symbols) ∧
    ∀ i r, parsed_instructions !! i = Some r → address r = i.
Proof.
  exact (parse_assembly_total_and_numbered
           (unlines [ "a:b:c ; stray"; ":"; "; comment"; ".EQU R0, 00b"; "x: nop" ])).
Defined.

(** Claim C1, as amended. Let [L] be a label whose last defining line is
    reached with the address counter at [A], with [A] below 16. Then every
    JMP or JZ record of the program whose operand string is [L], wherever it
    stands relative to that line, is encoded as the opcode of its mnemonic
    followed by the four bits of [A]. *)
Theorem address_operand_is_last_definition
    (assembly_code L : string) (A : nat)
    (parsed_instructions : list instruction_data) (symbols : gmap string string)
    (instruction : instruction_data) :
  last_defined_at assembly_code L A →
  A < 16 →
  parse_assembly assembly_code = Ok (parsed_instructions, symbols) →
  instruction ∈ parsed_instructions →
  mnemonic instruction = "JMP" ∨ mnemonic instruction = "JZ" →
  operands instruction = L →
  ∃ info,
    INSTRUCTION_SET !! mnemonic instruction = Some info ∧
    format info = "address" ∧
    encode_instruction symbols instruction = Ok (opcode info +:+ bits4 A).
Proof.
  intros Hlast HA Hparse _ Hm Hops.
  pose proof (last_defined_at_lookup _ _ _ _ Hlast Hparse) as Hlook. simpl in Hlook.
  assert (Hstrip : Py.strip L = L).
  { destruct Hlast as (_ & line & _ & _ & _ & _ & _ & HL & _).
    by eapply line_label_stripped. }
  rewrite (format_04b_bits4 _ HA) in Hlook.
  unfold encode_instruction.
  destruct Hm as [-> | ->]; eexists; (split; [reflexivity|]); (split; [reflexivity|]);
    cbn [format opcode String.eqb Ascii.eqb Bool.eqb];
    rewrite Hops, Hstrip, Hlook; reflexivity.
Qed.

Lemma address_operand_is_last_definition_witness :
  let forward := {| address := 0; mnemonic := "JMP"; operands := "END" |} in
  let backward := {| address := 3; mnemonic := "JMP"; operands := "END" |} in
  let symbols : gmap string string := <["END" := "0010"]> (<["START" := "0001"]> ∅) in
  last_defined_at jumps_program "END" 2 ∧
  (∃ info,
     INSTRUCTION_SET !! mnemonic forward = Some info ∧
     format info = "address" ∧
     encode_instruction symbols forward = Ok (opcode info +:+ bits4 2)) ∧
  (∃ info,
     INSTRUCTION_SET !! mnemonic backward = Some info ∧
     format info = "address" ∧
     encode_instruction symbols backward = Ok (opcode info +:+ bits4 2)).
Proof.
  intros forward backward symbols.
  assert (Hlast : last_defined_at jumps_program "END" 2).
  { exists ["JMP END"; "START: NOP"], "END: JZ START", ["JMP END"].
    eexists. do 4 (split; [reflexivity|]).
    intros later Hin. apply list_elem_of_singleton in Hin as ->. discriminate. }
  split; [exact Hlast|].
  split.
  - apply (address_operand_is_last_definition jumps_program "END" 2
             [ forward;
               {| address := 1; mnemonic := "NOP"; operands := "" |};
               {| address := 2; mnemonic := "JZ"; operands := "START" |};
               backward ]
             symbols forward Hlast).
    + lia.
    + reflexivity.
    + left.
    + left. reflexivity.
    + reflexivity.
  - apply (address_operand_is_last_definition jumps_program "END" 2
             [ forward;
               {| address := 1; mnemonic := "NOP"; operands := "" |};
               {| address := 2; mnemonic := "JZ"; operands := "START" |};
               backward ]
             symbols backward Hlast).
    + lia.
    + reflexivity.
    + do 3 right. left.
    + left. reflexivity.
    + reflexivity.
Defined.

(** Claim C1, as stated, fails when a label is defined twice: [A] is stored
    at address 0 and stored again at address 1, and the jump to [A] carries
    the bits of 1, not those of 0. *)
Lemma redefined_label_takes_last_address :
  let jump := {| address := 1; mnemonic := "JMP"; operands := "A" |} in
  let symbols : gmap string string := <["A" := "0001"]> ∅ in
  defined_at redefinition_program "A" 0 ∧
  0 < 16 ∧
  parse_assembly redefinition_program =
    Ok ([ {| address := 0; mnemonic := "NOP"; operands := "" |}; jump ], symbols) ∧
  mnemonic jump = "JMP" ∧
  operands jump = "A" ∧
  encode_instruction symbols jump = Ok ("1001" +:+ "0001") ∧
  "1001" +:+ "0001" ≠ "1001" +:+ bits4 0.
Proof.
  intros jump symbols. split.
  { exists [], "A: NOP", ["A: JMP A"], parse_start. by repeat split. }
  split; [lia|]. do 4 (split; [reflexivity|]). discriminate.
Qed.

(** ** The instruction encoder *)

Lemma length_append s1 s2 :
  String.length (s1 +:+ s2) = String.length s1 + String.length s2.
Proof.
  induction s1 as [|c s1 IH]; [done|].
  change (String c s1 +:+ s2) with (String c (s1 +:+ s2)). simpl. by rewrite IH.
Qed.

Lemma split_from_pieces sep s :
  (Py.split_from sep s).2 = [] ↔ Py.contains sep s = false.
Proof.
  induction s as [|c s IH]; simpl; [done|].
  destruct (Py.split_from sep s) as [piece pieces]. simpl in IH.
  destruct (Ascii.eqb c sep); simpl; [split; discriminate | exact IH].
Qed.

Lemma split_lookup_1 sep s :
  Py.split sep s !! 1 = None ↔ Py.contains sep s = false.
Proof.
  rewrite <- split_from_pieces. unfold Py.split.
  destruct (Py.split_from sep s) as [piece [|q pieces]]; simpl; split; done.
Qed.

Lemma split_cons_cons sep s p0 p1 rest :
  Py.split sep s = p0 :: p1 :: rest →
  Py.getitem (Py.split sep s) 0 = Ok p0 ∧ Py.getitem (Py.split sep s) 1 = Ok p1.
Proof. by intros ->. Qed.

(** The keys of the three static tables. *)
Lemma INSTRUCTION_SET_lookup m info :
  INSTRUCTION_SET !! m = Some info →
  (m, info) ∈
    [ ("NOP", {| opcode := "0000"; format := "" |});
      ("HLT", {| opcode := "0001"; format := "" |});
      ("IN",  {| opcode := "0010"; format := "reg_port" |});
      ("OUT", {| opcode := "0011"; format := "reg_port" |});
      ("MOV", {| opcode := "0100"; format := "reg_reg" |});
      ("LDI", {| opcode := "0101"; format := "reg_imm2" |});
      ("ADD", {| opcode := "0110"; format := "reg_reg" |});
      ("SUB", {| opcode := "0111"; format := "reg_reg" |});
      ("DEC", {| opcode := "1000"; format := "reg" |});
      ("JMP", {| opcode := "1001"; format := "address" |});
      ("JZ",  {| opcode := "1010"; format := "address" |}) ].
Proof. apply elem_of_list_to_map_2. Qed.

Lemma REGISTERS_lookup reg reg_bits :
  REGISTERS !! reg = Some reg_bits →
  (reg, reg_bits) ∈ [ ("R0", "00"); ("R1", "01"); ("R2", "10"); ("R3", "11") ].
Proof. apply elem_of_list_to_map_2. Qed.

Lemma PORTS_lookup port port_bits :
  PORTS !! port = Some port_bits →
  (port, port_bits) ∈
    [ ("LIGHT_PORT", "00"); ("MOTION_PORT", "01");
      ("DUMMY_PORT_A", "10"); ("DUMMY_PORT_B", "11") ].
Proof. apply elem_of_list_to_map_2. Qed.

(** An exception of the encoder is one of its own [ValueError]s, or the
    [IndexError] of the subscript [parts[1]] when the operand text has no
    comma. *)
Lemma encode_instruction_raises symbols instruction e :
  encode_instruction symbols instruction = Raise e →
  reportable e = true
  ∨ (e = IndexError ∧ Py.contains "," (operands instruction) = false).
Proof.
  unfold encode_instruction. cbv zeta. rewrite !getitem_split_0.
  unfold bind, Py.getitem.
  intros H. repeat case_match; simplify_eq; auto;
    right; (split; [done|]); by apply (split_lookup_1 ",").
Qed.

(** The last branch of the dispatch on the format is never taken: every
    format of the table has a branch. *)
Lemma encode_instruction_format_handled symbols instruction fmt m :
  encode_instruction symbols instruction ≠ Raise (UnhandledFormat fmt m).
Proof.
  unfold encode_instruction, bind, Py.getitem. intros H.
  destruct (INSTRUCTION_SET !! mnemonic instruction) as [info|] eqn:Hinfo;
    [|discriminate H].
  apply INSTRUCTION_SET_lookup in Hinfo.
  entries Hinfo; cbn [format opcode String.eqb Ascii.eqb Bool.eqb] in H;
    repeat case_match; simplify_eq.
Qed.

(** Claim C2, the code where it departs from the claim. For a mnemonic
    whose format has two operands, an operand text without a comma makes the
    encoder leave with the [IndexError] of [parts[1]], which is none of the
    failures the encoder reports itself. *)
Theorem two_operands_without_comma_raise_IndexError
    (symbols : gmap string string) (instruction : instruction_data)
    (info : opcode_info) :
  INSTRUCTION_SET !! mnemonic instruction = Some info →
  two_operands (format info) = true →
  Py.contains "," (operands instruction) = false →
  encode_instruction symbols instruction = Raise IndexError ∧
  reportable IndexError = false.
Proof.
  intros Hinfo Htwo Hcomma. split; [|reflexivity].
  apply split_lookup_1 in Hcomma.
  unfold encode_instruction. rewrite Hinfo. cbv zeta.
  rewrite !getitem_split_0. unfold Py.getitem at 1 2 3. rewrite Hcomma.
  apply INSTRUCTION_SET_lookup in Hinfo. entries Hinfo; try discriminate Htwo; reflexivity.
Qed.

Lemma two_operands_without_comma_witness :
  encode_instruction ∅ {| address := 0; mnemonic := "IN"; operands := "R0" |}
    = Raise IndexError ∧
  reportable IndexError = false.
Proof.
  apply (two_operands_without_comma_raise_IndexError ∅
           {| address := 0; mnemonic := "IN"; operands := "R0" |}
           {| opcode := "0010"; format := "reg_port" |}); reflexivity.
Defined.

(** Claim C9. A record whose mnemonic is NOP or HLT, the two mnemonics of the
    format without operands, is always encoded, as the opcode followed by
    0000, whatever its operand string holds. *)
Theorem no_operand_format_ignores_operands
    (symbols : gmap string string) (instruction : instruction_data) :
  mnemonic instruction = "NOP" ∨ mnemonic instruction = "HLT" →
  ∃ info,
    INSTRUCTION_SET !! mnemonic instruction = Some info ∧
    format info = "" ∧
    encode_instruction symbols instruction = Ok (opcode info +:+ "0000").
Proof.
  unfold encode_instruction.
  intros [-> | ->]; eexists; (split; [reflexivity|]); split; reflexivity.
Qed.

(** Conversely NOP and HLT are the only mnemonics of that format. *)
Lemma no_operand_format_mnemonics m info :
  INSTRUCTION_SET !! m = Some info → format info = "" → m = "NOP" ∨ m = "HLT".
Proof.
  intros Hinfo Hfmt. apply INSTRUCTION_SET_lookup in Hinfo.
  entries Hinfo; auto; discriminate Hfmt.
Qed.

Lemma no_operand_format_ignores_operands_witness :
  ∃ info,
    INSTRUCTION_SET !! "HLT" = Some info ∧
    format info = "" ∧
    encode_instruction ∅ {| address := 3; mnemonic := "HLT"; operands := "R0,R1,junk" |}
      = Ok (opcode info +:+ "0000").
Proof.
  apply (no_operand_format_ignores_operands ∅
           {| address := 3; mnemonic := "HLT"; operands := "R0,R1,junk" |}).
  right. reflexivity.
Defined.

(** What the encoder does with the immediate token. For a load-immediate
    record whose operand text has a comma and whose register resolves,
    [imm.replace('b', '')] removes every [b] from the token, wherever it
    stands, and the immediate error is raised exactly when what is left is
    not two characters among 0 and 1; otherwise the word is the opcode, the
    register bits and what is left. The immediate 3 is refused as the
    comment and the message of the code say; a marker that is not at the end
    of the token, as in b01, passes the test that was meant to refuse it. *)
Theorem immediate_checked_after_removing_every_b
    (symbols : gmap string string) (instruction : instruction_data)
    (info : opcode_info) (part0 part1 : string) (rest : list string)
    (reg_bits : string) :
  INSTRUCTION_SET !! mnemonic instruction = Some info →
  format info = "reg_imm2" →
  Py.split "," (operands instruction) = part0 :: part1 :: rest →
  REGISTERS !! Py.strip part0 = Some reg_bits →
  (encode_instruction symbols instruction = Raise (BadImmediate (Py.strip part1))
   ↔ Py.fullmatch_01_2 (Py.remove "b" (Py.strip part1)) = false) ∧
  (Py.fullmatch_01_2 (Py.remove "b" (Py.strip part1)) = true →
   encode_instruction symbols instruction =
     Ok (opcode info +:+ reg_bits +:+ Py.remove "b" (Py.strip part1))) ∧
  encode_instruction symbols {| address := 0; mnemonic := "LDI"; operands := "R0,3" |}
    = Raise (BadImmediate "3") ∧
  encode_instruction symbols {| address := 0; mnemonic := "LDI"; operands := "R0,b01" |}
    = Ok "01010001".
Proof.
  intros Hinfo Hfmt Hsplit Hreg.
  assert (Henc : encode_instruction symbols instruction =
            if Py.fullmatch_01_2 (Py.remove "b" (Py.strip part1))
            then Ok (opcode info +:+ reg_bits +:+ Py.remove "b" (Py.strip part1))
            else Raise (BadImmediate (Py.strip part1))).
  { unfold encode_instruction. rewrite Hinfo. cbv zeta. rewrite Hfmt.
    destruct (split_cons_cons _ _ _ _ _ Hsplit) as [-> ->].
    cbn [String.eqb Ascii.eqb Bool.eqb]. run_bind. rewrite Hreg.
    by destruct (Py.fullmatch_01_2 _). }
  rewrite Henc. destruct (Py.fullmatch_01_2 _); repeat split; done.
Qed.

Lemma immediate_checked_witness :
  let instruction := {| address := 0; mnemonic := "LDI"; operands := "R2,1b0b" |} in
  (encode_instruction ∅ instruction = Raise (BadImmediate "1b0b")
   ↔ Py.fullmatch_01_2 (Py.remove "b" "1b0b") = false) ∧
  (Py.fullmatch_01_2 (Py.remove "b" "1b0b") = true →
   encode_instruction ∅ instruction = Ok ("0101" +:+ "10" +:+ Py.remove "b" "1b0b")) ∧
  encode_instruction ∅ {| address := 0; mnemonic := "LDI"; operands := "R0,3" |}
    = Raise (BadImmediate "3") ∧
  encode_instruction ∅ {| address := 0; mnemonic := "LDI"; operands := "R0,b01" |}
    = Ok "01010001".
Proof.
  intros instruction.
  apply (immediate_checked_after_removing_every_b ∅ instruction
           {| opcode := "0101"; format := "reg_imm2" |} "R2" "1b0b" [] "10");
    reflexivity.
Defined.

(** Claim C4, the code where it departs from the claim. The comment of the
    code ('00b' -> '00'), its error message (must be 2-bit binary, e.g. 00b,
    11b) and the specification all take the radix marker at the end of the
    token. For the token b01 nothing is to be stripped, the three characters
    are not two binary digits, and the immediate error is due; the encoder,
    which removes every [b], returns the word 01010001 instead. *)
Lemma leading_marker_is_accepted :
  let instruction := {| address := 0; mnemonic := "LDI"; operands := "R0,b01" |} in
  REGISTERS !! "R0" = Some "00" ∧
  Py.fullmatch_01_2 (spec_strip_trailing_marker "b01") = false ∧
  encode_instruction ∅ instruction = Ok "01010001" ∧
  encode_instruction ∅ instruction ≠ Raise (BadImmediate "b01").
Proof. repeat split. discriminate. Qed.

(** ** Letter case *)

Lemma REGISTERS_upper reg reg_bits :
  REGISTERS !! reg = Some reg_bits → Py.upper reg = reg.
Proof. intros H. apply REGISTERS_lookup in H. entries H; reflexivity. Qed.

Lemma PORTS_upper port port_bits :
  PORTS !! port = Some port_bits → Py.upper port = port.
Proof. intros H. apply PORTS_lookup in H. entries H; reflexivity. Qed.

Lemma case_variant_REGISTERS name : case_variant REGISTERS name → REGISTERS !! name = None.
Proof.
  intros [Hne _]. destruct (REGISTERS !! name) as [v|] eqn:H; [|done].
  apply REGISTERS_upper in H. congruence.
Qed.

Lemma case_variant_PORTS name : case_variant PORTS name → PORTS !! name = None.
Proof.
  intros [Hne _]. destruct (PORTS !! name) as [v|] eqn:H; [|done].
  apply PORTS_upper in H. congruence.
Qed.

Lemma parse_lines_upper lines st st' :
  Forall (λ r, Py.upper (mnemonic r) = mnemonic r) (parsed_lines st) →
  parse_lines lines st = Ok st' →
  Forall (λ r, Py.upper (mnemonic r) = mnemonic r) (parsed_lines st').
Proof.
  revert st. induction lines as [|line lines IH]; intros st Hst; simpl.
  - by intros [= <-].
  - intros H. apply bind_Ok in H as (st1 & H1 & H2). apply (IH st1); [|exact H2].
    destruct (parse_line_spec line st) as (st1' & Hp & _ & Hrec).
    rewrite H1 in Hp. injection Hp as <-.
    destruct Hrec as [[-> _] | (tok & ops & -> & _)]; [done|].
    apply Forall_app. split; [done|]. constructor; [|done]. apply upper_idem.
Qed.

(** Property X19. The parser stores every mnemonic in upper case; operand
    names are looked up as they are written. When the operand text of a
    two-operand format has its comma: a register token that is a case
    variant of a register name, such as r0, makes the encoder fail with one
    of its two unknown-register errors; after a register that resolves, a
    case variant of a port name fails with the unknown-port error. For the
    one-operand formats: a case variant of a register name fails with the
    unknown-register error, and a label reference that is not itself a key of
    the symbol table fails with the undefined-label error even when its
    upper-case form is a key. *)
Theorem operand_names_are_case_sensitive :
  (∀ assembly_code parsed_instructions symbols r,
     parse_assembly assembly_code = Ok (parsed_instructions, symbols) →
     r ∈ parsed_instructions →
     Py.upper (mnemonic r) = mnemonic r) ∧
  (∀ symbols instruction info part0 part1 rest,
     INSTRUCTION_SET !! mnemonic instruction = Some info →
     format info = "reg_port" ∨ format info = "reg_imm2" →
     Py.split "," (operands instruction) = part0 :: part1 :: rest →
     case_variant REGISTERS (Py.strip part0) →
     encode_instruction symbols instruction =
       Raise (UnknownRegister (Py.strip part0) (mnemonic instruction))) ∧
  (∀ symbols instruction info part0 part1 rest,
     INSTRUCTION_SET !! mnemonic instruction = Some info →
     format info = "reg_reg" →
     Py.split "," (operands instruction) = part0 :: part1 :: rest →
     case_variant REGISTERS (Py.strip part0) ∨ case_variant REGISTERS (Py.strip part1) →
     encode_instruction symbols instruction =
       Raise (UnknownRegisterIn (mnemonic instruction) (operands instruction))) ∧
  (∀ symbols instruction info,
     INSTRUCTION_SET !! mnemonic instruction = Some info →
     format info = "reg" →
     case_variant REGISTERS (Py.strip (operands instruction)) →
     encode_instruction symbols instruction =
       Raise (UnknownRegister (Py.strip (operands instruction)) (mnemonic instruction))) ∧
  (∀ symbols instruction info part0 part1 rest,
     INSTRUCTION_SET !! mnemonic instruction = Some info →
     format info = "reg_port" →
     Py.split "," (operands instruction) = part0 :: part1 :: rest →
     is_Some (REGISTERS !! Py.strip part0) →
     case_variant PORTS (Py.strip part1) →
     encode_instruction symbols instruction =
       Raise (UnknownPort (Py.strip part1) (mnemonic instruction))) ∧
  (∀ (symbols : gmap string string) instruction info,
     INSTRUCTION_SET !! mnemonic instruction = Some info →
     format info = "address" →
     symbols !! Py.strip (operands instruction) = None →
     is_Some (symbols !! Py.upper (Py.strip (operands instruction))) →
     encode_instruction symbols instruction =
       Raise (UndefinedLabel (Py.strip (operands instruction)) (mnemonic instruction))).
Proof.
  split; [|split; [|split; [|split; [|split]]]].
  - intros code recs symbols r Hparse Hr. unfold parse_assembly in Hparse.
    apply bind_Ok in Hparse as (st & Hst & [= <- _]).
    pose proof (parse_lines_upper _ parse_start _ (Forall_nil_2 _) Hst) as Hall.
    by apply (proj1 (Forall_forall _ _) Hall).
  - intros symbols instruction info part0 part1 rest Hinfo Hfmt Hsplit Hreg.
    apply case_variant_REGISTERS in Hreg.
    unfold encode_instruction. rewrite Hinfo. cbv zeta.
    destruct (split_cons_cons _ _ _ _ _ Hsplit) as [-> ->].
    destruct Hfmt as [-> | ->]; cbn [String.eqb Ascii.eqb Bool.eqb]; run_bind;
      by rewrite Hreg.
  - intros symbols instruction info part0 part1 rest Hinfo Hfmt Hsplit Hreg.
    unfold encode_instruction. rewrite Hinfo. cbv zeta. rewrite Hfmt.
    destruct (split_cons_cons _ _ _ _ _ Hsplit) as [-> ->].
    cbn [String.eqb Ascii.eqb Bool.eqb]. run_bind.
    destruct Hreg as [Hreg | Hreg]; apply case_variant_REGISTERS in Hreg;
      rewrite Hreg; [done|]. by destruct (REGISTERS !! Py.strip part0).
  - intros symbols instruction info Hinfo Hfmt Hreg.
    apply case_variant_REGISTERS in Hreg.
    unfold encode_instruction. rewrite Hinfo. cbv zeta. rewrite Hfmt.
    cbn [String.eqb Ascii.eqb Bool.eqb]. by rewrite Hreg.
  - intros symbols instruction info part0 part1 rest Hinfo Hfmt Hsplit [bits Hreg] Hport.
    apply case_variant_PORTS in Hport.
    unfold encode_instruction. rewrite Hinfo. cbv zeta. rewrite Hfmt.
    destruct (split_cons_cons _ _ _ _ _ Hsplit) as [-> ->].
    cbn [String.eqb Ascii.eqb Bool.eqb]. run_bind. by rewrite Hreg, Hport.
  - intros symbols instruction info Hinfo Hfmt Hnone _.
    unfold encode_instruction. rewrite Hinfo. cbv zeta. rewrite Hfmt.
    cbn [String.eqb Ascii.eqb Bool.eqb]. by rewrite Hnone.
Qed.

Lemma operand_names_are_case_sensitive_witness :
  Py.upper (mnemonic {| address := 0; mnemonic := "LDI"; operands := "r0,00b" |}) = "LDI" ∧
  encode_instruction ∅ {| address := 0; mnemonic := "LDI"; operands := "r0,00b" |}
    = Raise (UnknownRegister "r0" "LDI") ∧
  encode_instruction ∅ {| address := 0; mnemonic := "MOV"; operands := "R0,r1" |}
    = Raise (UnknownRegisterIn "MOV" "R0,r1") ∧
  encode_instruction ∅ {| address := 0; mnemonic := "DEC"; operands := "r2" |}
    = Raise (UnknownRegister "r2" "DEC") ∧
  encode_instruction ∅ {| address := 0; mnemonic := "OUT"; operands := "R0,light_port" |}
    = Raise (UnknownPort "light_port" "OUT") ∧
  encode_instruction (<["START" := "0000"]> ∅)
      {| address := 0; mnemonic := "JMP"; operands := "start" |}
    = Raise (UndefinedLabel "start" "JMP").
Proof.
  destruct operand_names_are_case_sensitive as (Hm & Hr & Hrr & Hr1 & Hp & Hl).
  split.
  { apply (Hm "ldi r0,#00b"
              [ {| address := 0; mnemonic := "LDI"; operands := "r0,00b" |} ] ∅);
      [reflexivity | left]. }
  split.
  { apply (Hr ∅ {| address := 0; mnemonic := "LDI"; operands := "r0,00b" |}
              {| opcode := "0101"; format := "reg_imm2" |} "r0" "00b" []);
      [reflexivity | by right | reflexivity |].
    split; [discriminate | by eexists]. }
  split.
  { apply (Hrr ∅ {| address := 0; mnemonic := "MOV"; operands := "R0,r1" |}
               {| opcode := "0100"; format := "reg_reg" |} "R0" "r1" []);
      [reflexivity | reflexivity | reflexivity |].
    right. split; [discriminate | by eexists]. }
  split.
  { apply (Hr1 ∅ {| address := 0; mnemonic := "DEC"; operands := "r2" |}
               {| opcode := "1000"; format := "reg" |});
      [reflexivity | reflexivity |].
    split; [discriminate | by eexists]. }
  split.
  { apply (Hp ∅ {| address := 0; mnemonic := "OUT"; operands := "R0,light_port" |}
              {| opcode := "0011"; format := "reg_port" |} "R0" "light_port" []);
      [reflexivity | reflexivity | reflexivity | by eexists |].
    split; [discriminate | by eexists]. }
  apply (Hl (<["START" := "0000"]> ∅)
            {| address := 0; mnemonic := "JMP"; operands := "start" |}
            {| opcode := "1001"; format := "address" |});
    [reflexivity | reflexivity | reflexivity | by eexists].
Defined.

(** Claim C10, the code where it departs from the claim. The token r0 is a
    case variant of the register name R0, which resolves. In a record of a
    two-operand format whose operand text is r0 alone, the encoder does not
    reach the test on the register: the subscript [parts[1]] raises
    IndexError first, for IN, for MOV and for LDI alike, under every symbol
    table, and the run on the source line [IN r0] ends with that exception,
    where the claim has an unknown-register error. *)
Theorem case_variant_without_comma_raises_IndexError :
  case_variant REGISTERS "r0" ∧
  REGISTERS !! "R0" = Some "00" ∧
  (∀ symbols : gmap string string,
     encode_instruction symbols {| address := 0; mnemonic := "IN"; operands := "r0" |}
       = Raise IndexError ∧
     encode_instruction symbols {| address := 0; mnemonic := "MOV"; operands := "r0" |}
       = Raise IndexError ∧
     encode_instruction symbols {| address := 0; mnemonic := "LDI"; operands := "r0" |}
       = Raise IndexError) ∧
  (∀ reg m, IndexError ≠ UnknownRegister reg m) ∧
  (∀ m ops, IndexError ≠ UnknownRegisterIn m ops) ∧
  parse_assembly "IN r0" =
    Ok ([ {| address := 0; mnemonic := "IN"; operands := "r0" |} ], ∅) ∧
  main "IN r0" = Raise IndexError.
Proof.
  split; [split; [discriminate | by eexists]|].
  split; [reflexivity|].
  split; [intros symbols; repeat split|].
  split; [discriminate|]. split; [discriminate|].
  split; vm_compute; reflexivity.
Qed.

(** ** The two loops over lists *)

Lemma translate_from_Ok symbols records acc words :
  translate_from symbols records acc = Ok words ↔
  ∃ new, words = acc ++ new ∧
         Forall2 (λ r w, encode_instruction symbols r = Ok w) records new.
Proof.
  revert acc. induction records as [|r records IH]; intros acc; simpl.
  - split.
    + intros [= <-]. exists []. by rewrite app_nil_r.
    + intros (new & -> & Hnew). apply Forall2_nil_inv_l in Hnew as ->.
      by rewrite app_nil_r.
  - rewrite bind_Ok. split.
    + intros (w & Hw & Hrest). apply IH in Hrest as (new & -> & Hnew).
      exists (w :: new). rewrite <- app_assoc. split; [done|]. by constructor.
    + intros (new & -> & Hnew). apply Forall2_cons_inv_l in Hnew as (w & new' & Hw & Hnew & ->).
      exists w. split; [done|]. apply IH. exists new'. by rewrite <- app_assoc.
Qed.

Lemma translate_to_machine_code_Ok records symbols words :
  translate_to_machine_code records symbols = Ok words ↔
  Forall2 (λ r w, encode_instruction symbols r = Ok w) records words.
Proof.
  unfold translate_to_machine_code. rewrite translate_from_Ok. split.
  - by intros (new & -> & H).
  - intros H. by exists words.
Qed.

Lemma convert_from_Ok words acc hexes :
  convert_from words acc = Ok hexes ↔
  ∃ new, hexes = acc ++ new ∧ Forall2 (λ w h, hex_of_word w = Ok h) words new.
Proof.
  revert acc. induction words as [|w words IH]; intros acc; simpl.
  - split.
    + intros [= <-]. exists []. by rewrite app_nil_r.
    + intros (new & -> & Hnew). apply Forall2_nil_inv_l in Hnew as ->.
      by rewrite app_nil_r.
  - rewrite bind_Ok. split.
    + intros (h & Hh & Hrest). apply IH in Hrest as (new & -> & Hnew).
      exists (h :: new). rewrite <- app_assoc. split; [done|]. by constructor.
    + intros (new & -> & Hnew). apply Forall2_cons_inv_l in Hnew as (h & new' & Hh & Hnew & ->).
      exists h. split; [done|]. apply IH. exists new'. by rewrite <- app_assoc.
Qed.

Lemma convert_binary_to_hex_Ok words hexes :
  convert_binary_to_hex words = Ok hexes ↔
  Forall2 (λ w h, hex_of_word w = Ok h) words hexes.
Proof.
  unfold convert_binary_to_hex. rewrite convert_from_Ok. split.
  - by intros (new & -> & H).
  - intros H. by exists hexes.
Qed.

(** ** The width of a word *)

Lemma opcode_length m info :
  INSTRUCTION_SET !! m = Some info → String.length (opcode info) = 4.
Proof. intros H. apply INSTRUCTION_SET_lookup in H. entries H; reflexivity. Qed.

Lemma REGISTERS_length reg reg_bits :
  REGISTERS !! reg = Some reg_bits → String.length reg_bits = 2.
Proof. intros H. apply REGISTERS_lookup in H. entries H; reflexivity. Qed.

Lemma PORTS_length port port_bits :
  PORTS !! port = Some port_bits → String.length port_bits = 2.
Proof. intros H. apply PORTS_lookup in H. entries H; reflexivity. Qed.

Lemma fullmatch_01_2_length s : Py.fullmatch_01_2 s = true → String.length s = 2.
Proof. destruct s as [|a [|b [|c s]]]; simpl; try discriminate; done. Qed.

(** When every entry of the symbol table is four characters long, every word
    the encoder returns is eight characters long. *)
Lemma encode_instruction_length symbols instruction word :
  (∀ L bits, symbols !! L = Some bits → String.length bits = 4) →
  encode_instruction symbols instruction = Ok word →
  String.length word = 8.
Proof.
  intros Htable. unfold encode_instruction, bind, Py.getitem.
  intros H. repeat case_match; simplify_eq; rewrite ?length_append;
    repeat match goal with
      | H : INSTRUCTION_SET !! _ = Some _ |- _ => apply opcode_length in H; rewrite H
      | H : REGISTERS !! _ = Some _ |- _ => apply REGISTERS_length in H; rewrite H
      | H : PORTS !! _ = Some _ |- _ => apply PORTS_length in H; rewrite H
      | H : symbols !! _ = Some _ |- _ => apply Htable in H; rewrite H
      | H : negb (Py.fullmatch_01_2 _) = false |- _ =>
          apply negb_false_iff, fullmatch_01_2_length in H; rewrite H
      end; reflexivity.
Qed.

(** The entries of the symbol table are addresses the counter has taken,
    formatted. *)
Lemma parse_lines_labels_formatted lines st st' :
  (∀ L bits, labels st !! L = Some bits →
             ∃ n, n ≤ current_address st ∧ bits = Py.format_04b n) →
  parse_lines lines st = Ok st' →
  ∀ L bits, labels st' !! L = Some bits →
            ∃ n, n ≤ current_address st' ∧ bits = Py.format_04b n.
Proof.
  revert st. induction lines as [|line lines IH]; intros st Hst; simpl.
  - by intros [= <-].
  - intros H. apply bind_Ok in H as (st1 & H1 & H2). apply (IH st1); [|exact H2].
    destruct (parse_line_spec line st) as (st1' & Hp & Hlab & Hrec).
    rewrite H1 in Hp. injection Hp as <-.
    assert (Hle : current_address st ≤ current_address st1)
      by (destruct Hrec as [[_ ->] | (? & ? & _ & ->)]; lia).
    intros L bits. rewrite Hlab. destruct (line_label line) as [L'|].
    + rewrite lookup_insert. case_decide.
      * intros [= <-]. eauto.
      * intros HL. destruct (Hst _ _ HL) as (n & Hn & ->). exists n. split; [lia|done].
    + intros HL. destruct (Hst _ _ HL) as (n & Hn & ->). exists n. split; [lia|done].
Qed.

Lemma format_04b_length n : n < 16 → String.length (Py.format_04b n) = 4.
Proof. intros H. by rewrite format_04b_bits4. Qed.

(** A program of fewer than 16 instructions has words of eight characters
    only. *)
Lemma words_of_short_program assembly_code parsed_instructions symbols words :
  parse_assembly assembly_code = Ok (parsed_instructions, symbols) →
  length parsed_instructions < 16 →
  translate_to_machine_code parsed_instructions symbols = Ok words →
  Forall (λ w, String.length w = 8) words.
Proof.
  intros Hparse Hshort Hwords. unfold parse_assembly in Hparse.
  apply bind_Ok in Hparse as (st & Hst & [= <- <-]).
  pose proof (parse_lines_numbered _ _ _ numbered_start Hst) as [Hcur _].
  assert (Htable : ∀ L bits, labels st !! L = Some bits → String.length bits = 4).
  { intros L bits HL.
    destruct (parse_lines_labels_formatted _ parse_start _
                ltac:(intros ? ?; simpl; by rewrite lookup_empty) Hst L bits HL)
      as (n & Hn & ->).
    apply format_04b_length. lia. }
  apply translate_to_machine_code_Ok in Hwords.
  apply Forall_forall. intros w Hw.
  apply list_elem_of_lookup in Hw as [i Hi].
  destruct (Forall2_lookup_r _ _ _ _ _ Hwords Hi) as (r & _ & Hr).
  by eapply encode_instruction_length.
Qed.

(** Claim C3, the code where it departs from the claim. In the program of
    sixteen NOPs followed by [L: JMP L], the label is stored at address 16
    as the five characters 10000, the seventeenth word is 100110000, nine
    characters and not eight, and the codec then ends the run with its
    error on the length. *)
Theorem label_at_16_gives_nine_bits :
  ∃ parsed_instructions symbols words,
    parse_assembly overflow_program = Ok (parsed_instructions, symbols) ∧
    length parsed_instructions = 17 ∧
    symbols !! "L" = Some "10000" ∧
    translate_to_machine_code parsed_instructions symbols = Ok words ∧
    words !! 16 = Some "100110000" ∧
    String.length "100110000" = 9 ∧
    main overflow_program = Raise (NotEightBits "100110000").
Proof.
  eexists _, _, _. split; [vm_compute; reflexivity|].
  split; [reflexivity|]. split; [vm_compute; reflexivity|].
  split; [vm_compute; reflexivity|]. split; [reflexivity|].
  split; [reflexivity|]. vm_compute. reflexivity.
Qed.

(** ** Words of binary digits *)

Lemma binary_digit_cases c : binary_digit c = true → c = "0"%char ∨ c = "1"%char.
Proof.
  unfold binary_digit. intros H. apply orb_prop in H as [H | H];
    apply Ascii.eqb_eq in H; auto.
Qed.

Lemma all_binary_append s1 s2 :
  all_binary (s1 +:+ s2) = all_binary s1 && all_binary s2.
Proof.
  induction s1 as [|c s1 IH]; [done|].
  change (String c s1 +:+ s2) with (String c (s1 +:+ s2)). simpl.
  by rewrite IH, andb_assoc.
Qed.

Lemma scan_digits_binary s acc :
  all_binary s = true →
  Py.scan_digits 2 s false acc = Some (binary_value s acc, EmptyString).
Proof.
  revert acc. induction s as [|c s IH]; intros acc; simpl; [done|].
  intros H. apply andb_prop in H as [Hc Hs].
  destruct (binary_digit_cases c Hc) as [-> | ->]; simpl;
    rewrite (IH _ Hs); do 2 f_equal; f_equal; lia.
Qed.

Lemma skip_prefix_binary s : all_binary s = true → Py.skip_prefix 2 s = s.
Proof.
  destruct s as [|c [|d s]]; [done| |].
  - intros H. apply andb_prop in H as [Hc _].
    by destruct (binary_digit_cases c Hc) as [-> | ->].
  - intros H. apply andb_prop in H as [Hc H]. apply andb_prop in H as [Hd _].
    by destruct (binary_digit_cases c Hc) as [-> | ->],
                (binary_digit_cases d Hd) as [-> | ->].
Qed.

Lemma int_binary s :
  all_binary s = true → s ≠ EmptyString →
  Py.int s 2 = Ok (Z.of_N (binary_value s 0)).
Proof.
  intros Hs Hne. destruct s as [|c s]; [done|].
  pose proof (scan_digits_binary _ 0%N Hs) as Hscan.
  pose proof (skip_prefix_binary _ Hs) as Hskip.
  apply andb_prop in Hs as [Hc _].
  unfold Py.int.
  destruct (binary_digit_cases c Hc) as [-> | ->].
  - change (Py.lstrip_c (String "0" s)) with (String "0"%char s).
    cbv beta iota zeta. rewrite Hskip, Hscan. reflexivity.
  - change (Py.lstrip_c (String "1" s)) with (String "1"%char s).
    cbv beta iota zeta. rewrite Hskip, Hscan. reflexivity.
Qed.

Lemma bin_pos_binary p : all_binary (Py.bin_pos p) = true.
Proof. induction p; simpl; rewrite ?all_binary_append, ?IHp; done. Qed.

Lemma zeros_binary k : all_binary (Py.zeros k) = true.
Proof. induction k; simpl; done. Qed.

Lemma format_04b_binary n : all_binary (Py.format_04b n) = true.
Proof.
  unfold Py.format_04b, Py.zfill. rewrite all_binary_append, zeros_binary.
  destruct (N.of_nat n); simpl; [done | apply bin_pos_binary].
Qed.

Lemma opcode_binary m info :
  INSTRUCTION_SET !! m = Some info → all_binary (opcode info) = true.
Proof. intros H. apply INSTRUCTION_SET_lookup in H. entries H; reflexivity. Qed.

Lemma REGISTERS_binary reg reg_bits :
  REGISTERS !! reg = Some reg_bits → all_binary reg_bits = true.
Proof. intros H. apply REGISTERS_lookup in H. entries H; reflexivity. Qed.

Lemma PORTS_binary port port_bits :
  PORTS !! port = Some port_bits → all_binary port_bits = true.
Proof. intros H. apply PORTS_lookup in H. entries H; reflexivity. Qed.

Lemma fullmatch_01_2_binary s : Py.fullmatch_01_2 s = true → all_binary s = true.
Proof.
  destruct s as [|a [|b [|c s]]]; simpl; try discriminate.
  unfold binary_digit. by rewrite andb_true_r.
Qed.

(** When the entries of the symbol table are made of binary digits, so are
    the words the encoder returns. *)
Lemma encode_instruction_binary symbols instruction word :
  (∀ L bits, symbols !! L = Some bits → all_binary bits = true) →
  encode_instruction symbols instruction = Ok word →
  all_binary word = true.
Proof.
  intros Htable. unfold encode_instruction, bind, Py.getitem.
  intros H. repeat case_match; simplify_eq; rewrite ?all_binary_append;
    repeat match goal with
      | H : INSTRUCTION_SET !! _ = Some _ |- _ => apply opcode_binary in H; rewrite H
      | H : REGISTERS !! _ = Some _ |- _ => apply REGISTERS_binary in H; rewrite H
      | H : PORTS !! _ = Some _ |- _ => apply PORTS_binary in H; rewrite H
      | H : symbols !! _ = Some _ |- _ => apply Htable in H; rewrite H
      | H : negb (Py.fullmatch_01_2 _) = false |- _ =>
          apply negb_false_iff, fullmatch_01_2_binary in H; rewrite H
      end; reflexivity.
Qed.

(** The codec accepts every word of eight binary digits. *)
Lemma hex_of_word_binary word :
  all_binary word = true → String.length word = 8 →
  hex_of_word word = Ok (Py.format_02X (Z.of_N (binary_value word 0))).
Proof.
  intros Hbin Hlen. unfold hex_of_word. rewrite Hlen. simpl negb. cbv iota.
  rewrite int_binary; [done | done |]. by destruct word.
Qed.

Lemma parse_assembly_labels_binary assembly_code parsed_instructions symbols :
  parse_assembly assembly_code = Ok (parsed_instructions, symbols) →
  ∀ L bits, symbols !! L = Some bits → all_binary bits = true.
Proof.
  intros Hparse L bits HL. unfold parse_assembly in Hparse.
  apply bind_Ok in Hparse as (st & Hst & [= <- <-]).
  destruct (parse_lines_labels_formatted _ parse_start _
              ltac:(intros ? ?; simpl; by rewrite lookup_empty) Hst L bits HL)
    as (n & _ & ->).
  apply format_04b_binary.
Qed.

(** On the words of a parsed program the codec fails on a length only. *)
Lemma convert_binary_to_hex_words assembly_code parsed_instructions symbols words :
  parse_assembly assembly_code = Ok (parsed_instructions, symbols) →
  translate_to_machine_code parsed_instructions symbols = Ok words →
  Forall (λ w, String.length w = 8) words →
  ∃ hexes, convert_binary_to_hex words = Ok hexes.
Proof.
  intros Hparse Hwords Hlen.
  pose proof (parse_assembly_labels_binary _ _ _ Hparse) as Htable.
  apply translate_to_machine_code_Ok in Hwords.
  assert (Hbin : Forall (λ w, all_binary w = true) words).
  { apply Forall_forall. intros w Hw. apply list_elem_of_lookup in Hw as [i Hi].
    destruct (Forall2_lookup_r _ _ _ _ _ Hwords Hi) as (r & _ & Hr).
    by eapply encode_instruction_binary. }
  clear Hwords.
  exists ((λ w, Py.format_02X (Z.of_N (binary_value w 0))) <$> words).
  apply convert_binary_to_hex_Ok.
  induction words as [|w words IH]; [constructor|].
  apply Forall_cons in Hlen as [Hw Hlen]. apply Forall_cons in Hbin as [Hb Hbin].
  constructor; [by apply hex_of_word_binary | by apply IH].
Qed.

(** ** The codec *)

(** Claim C6. For every integer from 0 to 255, the rendering by
    [format(n, '02X')] is made of two upper-case hexadecimal digits, and
    parsing it back as a hexadecimal number returns the integer. *)
Theorem hex_round_trip (n : Z) :
  (0 ≤ n ≤ 255)%Z →
  hex_decode (Py.format_02X n) = Ok n ∧
  ∃ a b, Py.format_02X n = String a (String b EmptyString) ∧
         upper_hex_digit a = true ∧ upper_hex_digit b = true.
Proof.
  intros Hn.
  assert (Hall : forallb roundtrip_test (seq 0 256) = true) by (vm_compute; reflexivity).
  rewrite forallb_forall in Hall.
  specialize (Hall (Z.to_nat n)). rewrite in_seq in Hall.
  specialize (Hall ltac:(lia)). unfold roundtrip_test in Hall.
  rewrite Z2Nat.id in Hall by lia.
  destruct (Py.format_02X n) as [|a [|b [|c s]]]; try discriminate Hall.
  apply andb_prop in Hall as [Hdigits Hdecode].
  apply andb_prop in Hdigits as [Ha Hb].
  split.
  - destruct (hex_decode _) as [v|e]; [|discriminate Hdecode].
    apply Z.eqb_eq in Hdecode. by subst.
  - eauto.
Qed.

Lemma hex_round_trip_witness :
  hex_decode (Py.format_02X 166) = Ok 166%Z ∧
  ∃ a b, Py.format_02X 166 = String a (String b EmptyString) ∧
         upper_hex_digit a = true ∧ upper_hex_digit b = true.
Proof. apply (hex_round_trip 166). lia. Defined.

(** ** The whole run *)

(** Property X18. The test on the number of instructions comes last and
    stops nothing. An exception of the encoder or of the codec ends the run
    before the test is reached. When both return, the run ends normally with
    the very words the encoder returned and their hexadecimal form, one per
    instruction; with exactly 16 instructions no warning is given, with 17
    the warning is given, and in general it is given exactly when there are
    more than 16. The codec returns whenever the words of the program are
    eight characters long. *)
Theorem warning_after_encoding
    (assembly_code : string) (parsed_instructions : list instruction_data)
    (symbols : gmap string string) :
  parse_assembly assembly_code = Ok (parsed_instructions, symbols) →
  (∀ e, translate_to_machine_code parsed_instructions symbols = Raise e →
        main assembly_code = Raise e) ∧
  (∀ words e,
     translate_to_machine_code parsed_instructions symbols = Ok words →
     convert_binary_to_hex words = Raise e →
     main assembly_code = Raise e) ∧
  (∀ words hexes,
     translate_to_machine_code parsed_instructions symbols = Ok words →
     convert_binary_to_hex words = Ok hexes →
     ∃ out,
       main assembly_code = Ok out ∧
       run_binary out = words ∧
       run_hex out = hexes ∧
       length words = length parsed_instructions ∧
       length hexes = length parsed_instructions ∧
       (length parsed_instructions = 16 → run_warning out = false) ∧
       (length parsed_instructions = 17 → run_warning out = true) ∧
       (run_warning out = true ↔ 16 < length parsed_instructions)) ∧
  (∀ words,
     translate_to_machine_code parsed_instructions symbols = Ok words →
     Forall (λ w, String.length w = 8) words →
     ∃ out,
       main assembly_code = Ok out ∧
       run_binary out = words ∧
       (run_warning out = true ↔ 16 < length parsed_instructions)).
Proof.
  intros Hparse.
  assert (Hrun : ∀ words hexes,
     translate_to_machine_code parsed_instructions symbols = Ok words →
     convert_binary_to_hex words = Ok hexes →
     ∃ out,
       main assembly_code = Ok out ∧
       run_binary out = words ∧
       run_hex out = hexes ∧
       length words = length parsed_instructions ∧
       length hexes = length parsed_instructions ∧
       (length parsed_instructions = 16 → run_warning out = false) ∧
       (length parsed_instructions = 17 → run_warning out = true) ∧
       (run_warning out = true ↔ 16 < length parsed_instructions));
    [| split; [|split; [|split; [exact Hrun|]]] ].
  - unfold main. rewrite Hparse. run_bind. simpl.
    intros words hexes Hwords Hhexes. rewrite Hwords. run_bind. rewrite Hhexes. run_bind.
    eexists. split; [reflexivity|]. simpl.
    apply translate_to_machine_code_Ok, Forall2_length in Hwords.
    apply convert_binary_to_hex_Ok, Forall2_length in Hhexes.
    assert (Hlen : length hexes = length parsed_instructions) by congruence.
    rewrite Hlen. repeat split; try congruence.
    + by intros ->.
    + by intros ->.
    + intros H. by apply Nat.ltb_lt in H.
    + intros H. by apply Nat.ltb_lt.
  - unfold main. rewrite Hparse. run_bind. simpl. by intros e ->.
  - unfold main. rewrite Hparse. run_bind. simpl.
    intros words e Hwords He. rewrite Hwords. run_bind. by rewrite He.
  - intros words Hwords Hlen.
    destruct (convert_binary_to_hex_words _ _ _ _ Hparse Hwords Hlen) as [hexes Hhexes].
    destruct (Hrun words hexes Hwords Hhexes) as (out & Hout & Hbin & _ & _ & _ & _ & _ & Hw).
    exists out. auto.
Qed.

Lemma warning_after_encoding_witness :
  (∃ out, main (nops 16) = Ok out ∧
          length (run_binary out) = 16 ∧ run_warning out = false) ∧
  (∃ out, main (nops 17) = Ok out ∧
          length (run_binary out) = 17 ∧ run_warning out = true).
Proof.
  split.
  - assert (Hparse : ∃ records, parse_assembly (nops 16) = Ok (records, ∅) ∧
                       length records = 16 ∧
                       translate_to_machine_code records ∅ = Ok (replicate 16 "00000000")).
    { eexists. split; [vm_compute; reflexivity|]. split; vm_compute; reflexivity. }
    destruct Hparse as (records & Hparse & Hlen & Hwords).
    destruct (warning_after_encoding (nops 16) records ∅ Hparse) as (_ & _ & H & _).
    destruct (H (replicate 16 "00000000") (replicate 16 "00") Hwords)
      as (out & Hout & Hbin & _ & _ & _ & H16 & _); [vm_compute; reflexivity|].
    exists out. split; [exact Hout|]. split; [by rewrite Hbin | by apply H16].
  - assert (Hparse : ∃ records, parse_assembly (nops 17) = Ok (records, ∅) ∧
                       length records = 17 ∧
                       translate_to_machine_code records ∅ = Ok (replicate 17 "00000000")).
    { eexists. split; [vm_compute; reflexivity|]. split; vm_compute; reflexivity. }
    destruct Hparse as (records & Hparse & Hlen & Hwords).
    destruct (warning_after_encoding (nops 17) records ∅ Hparse) as (_ & _ & H & _).
    destruct (H (replicate 17 "00000000") (replicate 17 "00") Hwords)
      as (out & Hout & Hbin & _ & _ & _ & _ & H17 & _); [vm_compute; reflexivity|].
    exists out. split; [exact Hout|]. split; [by rewrite Hbin | by apply H17].
Defined.

(** Claim C5, the code where it departs from the claim. The program
    [overflow_program] has 17 instructions and the encoder translates all of
    them: encoding completes, with 17 words. The word of the jump to the
    label at address 16 has nine characters, the codec refuses it, and the
    run ends with the codec's exception before the test on the number of
    instructions is reached: no warning is given and no word is returned,
    where the claim has the warning and the full sequence of words. *)
Theorem overflow_program_gets_no_warning :
  ∃ parsed_instructions symbols words,
    parse_assembly overflow_program = Ok (parsed_instructions, symbols) ∧
    length parsed_instructions = 17 ∧
    translate_to_machine_code parsed_instructions symbols = Ok words ∧
    length words = 17 ∧
    convert_binary_to_hex words = Raise (NotEightBits "100110000") ∧
    main overflow_program = Raise (NotEightBits "100110000") ∧
    ∀ out, main overflow_program ≠ Ok out.
Proof.
  eexists _, _, _. split; [vm_compute; reflexivity|].
  split; [reflexivity|]. split; [vm_compute; reflexivity|].
  split; [reflexivity|]. split; [vm_compute; reflexivity|].
  assert (Hmain : main overflow_program = Raise (NotEightBits "100110000"))
    by (vm_compute; reflexivity).
  split; [exact Hmain|]. intros out. rewrite Hmain. discriminate.
Qed.

(** Claim C7. The one-line program [LDI R0,#00b] defines no label and is
    parsed as one record at address 0; the record is encoded as the opcode
    0101 followed by the operand field 0000, the word 01010000, whose
    hexadecimal form is 50. *)
Theorem load_immediate_end_to_end :
  parse_assembly "LDI R0,#00b" =
    Ok ([ {| address := 0; mnemonic := "LDI"; operands := "R0,00b" |} ], ∅) ∧
  (opcode <$> INSTRUCTION_SET !! "LDI") = Some "0101" ∧
  encode_instruction ∅ {| address := 0; mnemonic := "LDI"; operands := "R0,00b" |}
    = Ok ("0101" +:+ "0000") ∧
  main "LDI R0,#00b" =
    Ok {| run_labels := ∅; run_binary := [ "01010000" ]; run_hex := [ "50" ];
          run_warning := false |}.
Proof. repeat split. Qed.

(** The module's own program: fifteen instructions, five labels, no
    warning. *)
Example ASSEMBLY_CODE_run :
  main ASSEMBLY_CODE =
    Ok {| run_labels :=
            list_to_map
              [ ("START", "0000"); ("WAIT_MOTION", "0010"); ("MOTION_DETECTED", "0110");
                ("COUNTDOWN_LOOP", "1001"); ("LIGHT_OFF", "1100") ];
          run_binary :=
            [ "01010000"; "00110000"; "00100101"; "01000001"; "01110000";
              "10100010"; "01011001"; "01010001"; "00110000"; "10001000";
              "10101100"; "10011001"; "01010000"; "00110000"; "10010000" ];
          run_hex :=
            [ "50"; "30"; "25"; "41"; "70"; "A2"; "59"; "51"; "30"; "88";
              "AC"; "99"; "50"; "30"; "90" ];
          run_warning := false |}.
Proof. vm_compute. reflexivity. Qed.

(** Operand text after NOP goes through the parser and is not looked at by
    the encoder. *)
Example nop_with_operands_run :
  parse_assembly "nop R0, #junk" =
    Ok ([ {| address := 0; mnemonic := "NOP"; operands := "R0,junk" |} ], ∅) ∧
  (let* out := main "nop R0, #junk" in Ok (run_binary out)) = Ok [ "00000000" ].
Proof. split; vm_compute; reflexivity. Qed.

(** * Further properties *)

(** ** The translation loop *)

Lemma bind_Raise {A B : Type} (r : result A) (k : A → result B) (e : exn) :
  bind r k = Raise e ↔ r = Raise e ∨ ∃ a, r = Ok a ∧ k a = Raise e.
Proof.
  destruct r as [a|e']; simpl; split.
  - intros H. right. eauto.
  - intros [[=] | (a' & [= <-] & H)]. exact H.
  - intros [= <-]. by left.
  - intros [[= <-] | (a' & [=] & _)]. done.
Qed.

(** The accumulator of the loop only collects: running the loop from
    [acc] is running it from the empty list and appending. *)
Lemma translate_from_acc symbols records acc :
  translate_from symbols records acc =
  let* words := translate_from symbols records [] in Ok (acc ++ words).
Proof.
  revert acc. induction records as [|r records IH]; intros acc; simpl.
  - by rewrite app_nil_r.
  - destruct (encode_instruction symbols r) as [w|e]; run_bind; [|done].
    rewrite (IH (acc ++ [w])), (IH [w]).
    destruct (translate_from symbols records []) as [ws|e]; run_bind; [|done].
    by rewrite <- app_assoc.
Qed.

Lemma translate_cons symbols r records :
  translate_to_machine_code (r :: records) symbols =
  let* w := encode_instruction symbols r in
  let* ws := translate_to_machine_code records symbols in Ok (w :: ws).
Proof.
  unfold translate_to_machine_code. simpl.
  destruct (encode_instruction symbols r) as [w|e]; run_bind; [|done].
  by rewrite translate_from_acc.
Qed.

(** Property X1. Translating two lists of records one after the other and
    joining the words is translating their concatenation, exceptions
    included: the first exception, in the order of the records, is the
    outcome, and no word is returned with it. *)
Theorem translate_to_machine_code_app
    (records1 records2 : list instruction_data) (symbols : gmap string string) :
  translate_to_machine_code (records1 ++ records2) symbols =
  let* words1 := translate_to_machine_code records1 symbols in
  let* words2 := translate_to_machine_code records2 symbols in
  Ok (words1 ++ words2).
Proof.
  induction records1 as [|r records1 IH].
  - simpl. by destruct (translate_to_machine_code records2 symbols).
  - change ((r :: records1) ++ records2) with (r :: (records1 ++ records2)).
    rewrite !translate_cons, IH.
    destruct (encode_instruction symbols r) as [w|e]; run_bind; [|done].
    destruct (translate_to_machine_code records1 symbols) as [ws1|e]; run_bind; [|done].
    by destruct (translate_to_machine_code records2 symbols).
Qed.

(** The translation raises exactly when some record raises after records
    that are all encoded. *)
Lemma translate_Raise records symbols e :
  translate_to_machine_code records symbols = Raise e ↔
  ∃ before r after,
    records = before ++ r :: after ∧
    Forall (λ r', ∃ w, encode_instruction symbols r' = Ok w) before ∧
    encode_instruction symbols r = Raise e.
Proof.
  induction records as [|r records IH].
  - split; [discriminate|]. intros (before & r & after & H & _). by destruct before.
  - rewrite translate_cons. split.
    + intros H. apply bind_Raise in H as [H | (w & Hw & H)].
      * exists [], r, records. by repeat split.
      * apply bind_Raise in H as [H | (ws & _ & [=])].
        apply IH in H as (before & r' & after & -> & Hbefore & Hr').
        exists (r :: before), r', after. repeat split; [|done].
        constructor; eauto.
    + intros (before & r' & after & Heq & Hbefore & Hr').
      destruct before as [|r0 before]; simplify_eq/=.
      * by rewrite Hr'.
      * apply Forall_cons in Hbefore as [[w ->] Hbefore]. run_bind.
        assert (translate_to_machine_code (before ++ r' :: after) symbols = Raise e) as ->;
          [|done].
        apply IH. eauto 10.
Qed.

(** Property X2. The translation raises an exception exactly when some
    record makes the encoder raise it while every record before it is
    encoded: the loop stops at the first record that fails. *)
Theorem translation_fails_at_first_bad_record
    (records : list instruction_data) (symbols : gmap string string) (e : exn) :
  translate_to_machine_code records symbols = Raise e ↔
  ∃ before r after,
    records = before ++ r :: after ∧
    Forall (λ r', ∃ w, encode_instruction symbols r' = Ok w) before ∧
    encode_instruction symbols r = Raise e.
Proof. apply translate_Raise. Qed.

(** Property X3. An exception of the translation is one of the encoder's
    own errors or the IndexError of a subscript; it is never the error of the
    last branch of the dispatch on the format, and never one of the two
    errors of the codec. *)
Theorem translation_exceptions
    (records : list instruction_data) (symbols : gmap string string) (e : exn) :
  translate_to_machine_code records symbols = Raise e →
  (reportable e = true ∨ e = IndexError) ∧
  (∀ fmt m, e ≠ UnhandledFormat fmt m) ∧
  (∀ w, e ≠ NotEightBits w) ∧
  (∀ base s, e ≠ InvalidLiteral base s).
Proof.
  intros H. apply translate_Raise in H as (before & r & after & _ & _ & Hr).
  split; [|split; [|split]].
  - destruct (encode_instruction_raises _ _ _ Hr) as [? | [-> _]]; auto.
  - intros fmt m ->. by apply encode_instruction_format_handled in Hr.
  - intros w ->. by destruct (encode_instruction_raises _ _ _ Hr) as [? | [? _]].
  - intros base s ->. by destruct (encode_instruction_raises _ _ _ Hr) as [? | [? _]].
Qed.

Lemma translation_exceptions_witness :
  translate_to_machine_code
    [ {| address := 0; mnemonic := "NOP"; operands := "" |};
      {| address := 1; mnemonic := "FOO"; operands := "R0" |} ] ∅
    = Raise (UnknownMnemonic "FOO") ∧
  (reportable (UnknownMnemonic "FOO") = true ∨ UnknownMnemonic "FOO" = IndexError) ∧
  (∀ fmt m, UnknownMnemonic "FOO" ≠ UnhandledFormat fmt m) ∧
  (∀ w, UnknownMnemonic "FOO" ≠ NotEightBits w) ∧
  (∀ base s, UnknownMnemonic "FOO" ≠ InvalidLiteral base s).
Proof.
  split; [reflexivity|].
  apply (translation_exceptions
           [ {| address := 0; mnemonic := "NOP"; operands := "" |};
             {| address := 1; mnemonic := "FOO"; operands := "R0" |} ] ∅).
  reflexivity.
Defined.

(** ** Words and mnemonics *)

(** A word is the opcode of the record's mnemonic followed by an operand
    field. *)
Lemma encode_instruction_Ok symbols instruction word :
  encode_instruction symbols instruction = Ok word →
  ∃ info field,
    INSTRUCTION_SET !! mnemonic instruction = Some info ∧
    word = opcode info +:+ field.
Proof.
  unfold encode_instruction.
  destruct (INSTRUCTION_SET !! mnemonic instruction) as [info|]; [|discriminate].
  cbv zeta. intros H. apply bind_Ok in H as (field & _ & [= <-]). eauto.
Qed.

Lemma append_inj_length a1 b1 a2 b2 :
  String.length a1 = String.length a2 →
  a1 +:+ b1 = a2 +:+ b2 → a1 = a2 ∧ b1 = b2.
Proof.
  revert a2. induction a1 as [|c a1 IH]; intros [|d a2]; simpl; try discriminate.
  - intros _ H. auto.
  - intros [= Hlen].
    change (String c (a1 +:+ b1) = String d (a2 +:+ b2) → String c a1 = String d a2 ∧ b1 = b2).
    intros [= -> H]. destruct (IH _ Hlen H) as [-> ->]. auto.
Qed.

Lemma opcode_inj m1 m2 info1 info2 :
  INSTRUCTION_SET !! m1 = Some info1 →
  INSTRUCTION_SET !! m2 = Some info2 →
  opcode info1 = opcode info2 → m1 = m2.
Proof.
  intros H1 H2. apply INSTRUCTION_SET_lookup in H1, H2.
  entries H1; entries H2; simpl; intros; done.
Qed.

(** Property X4. Two records encoded to the same word, under whatever
    symbol tables, have the same mnemonic: the first four characters of a
    word identify the mnemonic. *)
Theorem word_determines_mnemonic
    (symbols1 symbols2 : gmap string string) (r1 r2 : instruction_data) (word : string) :
  encode_instruction symbols1 r1 = Ok word →
  encode_instruction symbols2 r2 = Ok word →
  mnemonic r1 = mnemonic r2.
Proof.
  intros H1 H2.
  apply encode_instruction_Ok in H1 as (info1 & f1 & Hi1 & ->).
  apply encode_instruction_Ok in H2 as (info2 & f2 & Hi2 & Heq).
  apply append_inj_length in Heq as [Hop _].
  - by eapply opcode_inj.
  - by rewrite (opcode_length _ _ Hi1), (opcode_length _ _ Hi2).
Qed.

Lemma word_determines_mnemonic_witness :
  mnemonic {| address := 0; mnemonic := "JZ"; operands := "A" |}
  = mnemonic {| address := 7; mnemonic := "JZ"; operands := " B " |}.
Proof.
  apply (word_determines_mnemonic (<["A" := "0110"]> ∅) (<["B" := "0110"]> ∅)
           {| address := 0; mnemonic := "JZ"; operands := "A" |}
           {| address := 7; mnemonic := "JZ"; operands := " B " |} "10100110");
    reflexivity.
Defined.

(** Property X5. For a record whose mnemonic is neither JMP nor JZ the
    outcome of the encoder, a word or an exception, is the same under every
    symbol table. *)
Theorem only_jumps_read_the_symbol_table
    (symbols1 symbols2 : gmap string string) (instruction : instruction_data) :
  mnemonic instruction ≠ "JMP" → mnemonic instruction ≠ "JZ" →
  encode_instruction symbols1 instruction = encode_instruction symbols2 instruction.
Proof.
  intros Hjmp Hjz. unfold encode_instruction.
  destruct (INSTRUCTION_SET !! mnemonic instruction) as [info|] eqn:Hinfo; [|done].
  apply INSTRUCTION_SET_lookup in Hinfo. entries Hinfo; done.
Qed.

Lemma only_jumps_read_the_symbol_table_witness :
  encode_instruction ∅ {| address := 0; mnemonic := "DEC"; operands := "R1" |}
  = encode_instruction (<["R1" := "1111"]> ∅)
      {| address := 0; mnemonic := "DEC"; operands := "R1" |}.
Proof.
  apply (only_jumps_read_the_symbol_table ∅ (<["R1" := "1111"]> ∅)
           {| address := 0; mnemonic := "DEC"; operands := "R1" |}); discriminate.
Defined.

(** ** The codec on binary words *)

Lemma nibble_cases s :
  all_binary s = true → String.length s = 4 → s ∈ nibbles.
Proof.
  destruct s as [|c1 [|c2 [|c3 [|c4 [|c5 s]]]]]; try discriminate.
  simpl. intros H _.
  repeat (apply andb_prop in H as [?%binary_digit_cases H]).
  unfold nibbles. destruct_or!; subst; set_solver.
Qed.

Lemma hex_of_word_nibbles high low :
  high ∈ nibbles → low ∈ nibbles →
  hex_of_word (high +:+ low) =
    Ok (String (Py.hex_digit (binary_value high 0))
          (String (Py.hex_digit (binary_value low 0)) EmptyString)).
Proof.
  unfold nibbles. intros Hhigh Hlow.
  members Hhigh; members Hlow; vm_compute; reflexivity.
Qed.

Lemma word_nibbles word :
  all_binary word = true → String.length word = 8 →
  ∃ high low, word = high +:+ low ∧ high ∈ nibbles ∧ low ∈ nibbles.
Proof.
  destruct word as [|c1 [|c2 [|c3 [|c4 [|c5 [|c6 [|c7 [|c8 [|c9 s]]]]]]]]];
    try discriminate.
  intros H _.
  exists (String c1 (String c2 (String c3 (String c4 EmptyString)))),
         (String c5 (String c6 (String c7 (String c8 EmptyString)))).
  split; [reflexivity|].
  simpl in H. repeat (apply andb_prop in H as [? H]).
  split; apply nibble_cases; simpl; repeat (apply andb_true_intro; split); done.
Qed.

(** Property X6. For a word made of two groups of four binary digits the
    codec returns two characters: the hexadecimal digit of the first group
    followed by the hexadecimal digit of the second. *)
Theorem hex_digits_are_the_two_nibbles (high low : string) :
  all_binary high = true → String.length high = 4 →
  all_binary low = true → String.length low = 4 →
  hex_of_word (high +:+ low) =
    Ok (String (Py.hex_digit (binary_value high 0))
          (String (Py.hex_digit (binary_value low 0)) EmptyString)).
Proof.
  intros Hh Hhl Hl Hll.
  apply hex_of_word_nibbles; by apply nibble_cases.
Qed.

Lemma hex_digits_are_the_two_nibbles_witness :
  hex_of_word ("1010" +:+ "0110") = Ok "A6".
Proof.
  apply (hex_digits_are_the_two_nibbles "1010" "0110"); reflexivity.
Defined.

Lemma nibble_hex_digit_inj a b :
  a ∈ nibbles → b ∈ nibbles →
  Py.hex_digit (binary_value a 0) = Py.hex_digit (binary_value b 0) → a = b.
Proof.
  unfold nibbles. intros Ha Hb.
  members Ha; members Hb; vm_compute; intros H; first [reflexivity | discriminate H].
Qed.

Lemma hex_of_word_inj w1 w2 h :
  all_binary w1 = true → all_binary w2 = true →
  hex_of_word w1 = Ok h → hex_of_word w2 = Ok h → w1 = w2.
Proof.
  intros Hb1 Hb2 H1 H2.
  assert (Hl1 : String.length w1 = 8).
  { unfold hex_of_word in H1. destruct (String.length w1 =? 8) eqn:E; [|discriminate H1].
    by apply Nat.eqb_eq. }
  assert (Hl2 : String.length w2 = 8).
  { unfold hex_of_word in H2. destruct (String.length w2 =? 8) eqn:E; [|discriminate H2].
    by apply Nat.eqb_eq. }
  destruct (word_nibbles _ Hb1 Hl1) as (h1 & l1 & -> & Hh1 & Hll1).
  destruct (word_nibbles _ Hb2 Hl2) as (h2 & l2 & -> & Hh2 & Hll2).
  rewrite hex_of_word_nibbles in H1, H2 by done.
  injection H1 as <-. injection H2 as Ha Hb.
  by rewrite (nibble_hex_digit_inj _ _ Hh1 Hh2), (nibble_hex_digit_inj _ _ Hll1 Hll2).
Qed.

(** Property X7. On words made of binary digits the codec loses nothing:
    two lists of such words with the same hexadecimal rendering are the same
    list. *)
Theorem convert_binary_to_hex_inj (words1 words2 hexes : list string) :
  Forall (λ w, all_binary w = true) words1 →
  Forall (λ w, all_binary w = true) words2 →
  convert_binary_to_hex words1 = Ok hexes →
  convert_binary_to_hex words2 = Ok hexes →
  words1 = words2.
Proof.
  intros Hb1 Hb2 H1 H2.
  apply convert_binary_to_hex_Ok in H1, H2.
  revert words2 Hb2 H2. induction H1 as [|w1 h ws1 hs Hw1 _ IH]; intros words2 Hb2 H2.
  - by apply Forall2_nil_inv_r in H2.
  - apply Forall2_cons_inv_r in H2 as (w2 & ws2 & Hw2 & H2 & ->).
    apply Forall_cons in Hb1 as [Hb1 Hbs1]. apply Forall_cons in Hb2 as [Hb2 Hbs2].
    f_equal; [by eapply hex_of_word_inj | by apply IH].
Qed.

Lemma convert_binary_to_hex_inj_witness :
  convert_binary_to_hex [ "01010000"; "10100110" ] = Ok [ "50"; "A6" ] ∧
  [ "01010000"; "10100110" ] = [ "0101" +:+ "0000"; "1010" +:+ "0110" ].
Proof.
  split; [reflexivity|].
  apply (convert_binary_to_hex_inj
           [ "01010000"; "10100110" ] [ "0101" +:+ "0000"; "1010" +:+ "0110" ]
           [ "50"; "A6" ]);
    first [ reflexivity | repeat constructor ].
Defined.

Lemma convert_from_acc words acc :
  convert_from words acc =
  let* hexes := convert_from words [] in Ok (acc ++ hexes).
Proof.
  revert acc. induction words as [|w words IH]; intros acc; simpl.
  - by rewrite app_nil_r.
  - destruct (hex_of_word w) as [h|e]; run_bind; [|done].
    rewrite (IH (acc ++ [h])), (IH [h]).
    destruct (convert_from words []) as [hs|e]; run_bind; [|done].
    by rewrite <- app_assoc.
Qed.

Lemma convert_cons w words :
  convert_binary_to_hex (w :: words) =
  let* h := hex_of_word w in
  let* hs := convert_binary_to_hex words in Ok (h :: hs).
Proof.
  unfold convert_binary_to_hex. simpl.
  destruct (hex_of_word w) as [h|e]; run_bind; [|done].
  by rewrite convert_from_acc.
Qed.

(** What makes the codec refuse one word. *)
Lemma hex_of_word_Raise word e :
  hex_of_word word = Raise e →
  (e = NotEightBits word ∧ String.length word ≠ 8)
  ∨ (e = InvalidLiteral 2 word ∧ String.length word = 8 ∧ all_binary word = false).
Proof.
  unfold hex_of_word. destruct (String.length word =? 8) eqn:Hlen; simpl.
  - apply Nat.eqb_eq in Hlen. intros H. right.
    destruct (all_binary word) eqn:Hbin.
    + rewrite int_binary in H; [discriminate H | done |]. by destruct word.
    + apply bind_Raise in H as [H | (v & _ & [=])].
      unfold Py.int in H. repeat case_match; simplify_eq; done.
  - apply Nat.eqb_neq in Hlen. intros [= <-]. by left.
Qed.

(** Property X8. The codec raises an exception exactly when some word is
    refused while every word before it is rendered; the word refused either
    is not eight characters long, which gives the error on the length, or is
    eight characters long and not made of binary digits only, which gives the
    error of [int]. *)
Theorem codec_fails_at_first_bad_word (words : list string) (e : exn) :
  convert_binary_to_hex words = Raise e ↔
  ∃ before word after,
    words = before ++ word :: after ∧
    Forall (λ w, ∃ h, hex_of_word w = Ok h) before ∧
    hex_of_word word = Raise e ∧
    ((e = NotEightBits word ∧ String.length word ≠ 8)
     ∨ (e = InvalidLiteral 2 word ∧ String.length word = 8 ∧ all_binary word = false)).
Proof.
  induction words as [|w words IH].
  - split; [discriminate|]. intros (before & w & after & H & _). by destruct before.
  - rewrite convert_cons. split.
    + intros H. apply bind_Raise in H as [H | (h & Hh & H)].
      * exists [], w, words. split; [done|]. split; [done|]. split; [done|].
        by apply hex_of_word_Raise.
      * apply bind_Raise in H as [H | (hs & _ & [=])].
        apply IH in H as (before & w' & after & -> & Hbefore & Hw' & Hkind).
        exists (w :: before), w', after.
        split; [done|]. split; [constructor; eauto|]. by split.
    + intros (before & w' & after & Heq & Hbefore & Hw' & Hkind).
      destruct before as [|w0 before]; simplify_eq/=.
      * by rewrite Hw'.
      * apply Forall_cons in Hbefore as [[h ->] Hbefore]. run_bind.
        assert (convert_binary_to_hex (before ++ w' :: after) = Raise e) as ->; [|done].
        apply IH. eauto 10.
Qed.

(** *** [format(n, '04b')] read back by [int(s, 2)] *)

Lemma binary_value_append a b acc :
  binary_value (a +:+ b) acc = binary_value b (binary_value a acc).
Proof.
  revert acc. induction a as [|c a IH]; intros acc; [done|].
  change (String c a +:+ b) with (String c (a +:+ b)). simpl. apply IH.
Qed.

Lemma binary_value_bin_pos p : binary_value (Py.bin_pos p) 0 = Npos p.
Proof.
  induction p as [p IH | p IH |]; simpl; [| |done];
    rewrite binary_value_append, IH; simpl; lia.
Qed.

Lemma binary_value_zeros k : binary_value (Py.zeros k) 0 = 0%N.
Proof. induction k as [|k IH]; simpl; [done|]. exact IH. Qed.

Lemma length_bin_pos p : String.length (Py.bin_pos p) = Pos.size_nat p.
Proof.
  induction p as [p IH | p IH |]; simpl; [| |done];
    rewrite length_append, IH; simpl; lia.
Qed.

Lemma length_zeros k : String.length (Py.zeros k) = k.
Proof. induction k as [|k IH]; simpl; [done|]. by rewrite IH. Qed.

(** Property X9. What [format(n, '04b')] writes, [int(s, 2)] reads back
    as [n]. The text is made of binary digits, is at least four characters
    long, and is exactly four characters long when [n] is below 16 and only
    then. *)
Theorem format_04b_read_back (n : nat) :
  Py.int (Py.format_04b n) 2 = Ok (Z.of_nat n) ∧
  all_binary (Py.format_04b n) = true ∧
  4 ≤ String.length (Py.format_04b n) ∧
  (String.length (Py.format_04b n) = 4 ↔ n < 16).
Proof.
  split; [|split; [apply format_04b_binary|]].
  - rewrite int_binary; [|apply format_04b_binary|].
    + f_equal. unfold Py.format_04b, Py.zfill.
      rewrite binary_value_append, binary_value_zeros.
      destruct n as [|n]; [done|].
      change (N.of_nat (S n)) with (Npos (Pos.of_succ_nat n)).
      cbn [Py.bin]. rewrite binary_value_bin_pos. lia.
    + unfold Py.format_04b, Py.zfill. destruct (N.of_nat n) as [|p]; simpl.
      * done.
      * intros H. apply (f_equal String.length) in H.
        rewrite length_append, length_bin_pos in H. simpl in H.
        destruct p; simpl in H; lia.
  - assert (Hlen : String.length (Py.format_04b n)
                   = Nat.max 4 (String.length (Py.bin (N.of_nat n)))).
    { unfold Py.format_04b, Py.zfill. rewrite length_append, length_zeros. lia. }
    rewrite Hlen. split; [lia|]. split.
    + intros H. destruct (decide (n < 16)) as [|Hge]; [done|]. exfalso.
      assert (5 ≤ String.length (Py.bin (N.of_nat n))); [|lia].
      destruct (N.of_nat n) as [|p] eqn:Hp; [lia|]. cbn [Py.bin].
      rewrite length_bin_pos.
      destruct (decide (p = 16%positive)) as [-> | Hne]; [done|].
      change 5 with (Pos.size_nat 16). apply Pos.size_nat_monotone. lia.
    + intros H. rewrite <- Hlen. by apply format_04b_length.
Qed.

(** ** What the parser returns *)

Lemma contains_lstrip c s : Py.contains c s = false → Py.contains c (Py.lstrip s) = false.
Proof.
  induction s as [|d s IH]; simpl; [done|].
  intros H. apply orb_false_elim in H as [Hd Hs].
  destruct (Py.isspace d); [by apply IH|]. simpl. by rewrite Hd, Hs.
Qed.

Lemma contains_rstrip c s : Py.contains c s = false → Py.contains c (Py.rstrip s) = false.
Proof.
  induction s as [|d s IH]; simpl; [done|].
  intros H. apply orb_false_elim in H as [Hd Hs]. specialize (IH Hs).
  destruct (Py.rstrip s); [destruct (Py.isspace d)|]; simpl in *; by rewrite ?Hd, ?IH.
Qed.

Lemma contains_strip c s : Py.contains c s = false → Py.contains c (Py.strip s) = false.
Proof. intros H. by apply contains_rstrip, contains_lstrip. Qed.

Lemma contains_first_piece sep s : Py.contains sep (Py.split_from sep s).1 = false.
Proof.
  induction s as [|d s IH]; simpl; [done|].
  destruct (Py.split_from sep s) as [piece pieces]. simpl in IH.
  destruct (Ascii.eqb d sep) eqn:Hd; simpl; [done|]. by rewrite Hd.
Qed.

Lemma contains_first_piece_other c sep s :
  Py.contains c s = false → Py.contains c (Py.split_from sep s).1 = false.
Proof.
  induction s as [|d s IH]; simpl; [done|].
  intros H. apply orb_false_elim in H as [Hd Hs]. specialize (IH Hs).
  destruct (Py.split_from sep s) as [piece pieces]. simpl in IH.
  destruct (Ascii.eqb d sep); simpl; [done|]. by rewrite Hd.
Qed.

Lemma line_label_clean line L : line_label line = Some L → clean_label L.
Proof.
  unfold line_label, line_body.
  destruct (_ || _); [discriminate|].
  destruct (Py.contains ":" _); [|discriminate].
  intros [= <-]. split; [apply strip_idem|]. split.
  - apply contains_strip, contains_first_piece.
  - apply contains_strip, contains_first_piece_other, contains_strip, contains_first_piece.
Qed.

Lemma parse_lines_labels_clean lines st st' :
  (∀ L bits, labels st !! L = Some bits → clean_label L) →
  parse_lines lines st = Ok st' →
  ∀ L bits, labels st' !! L = Some bits → clean_label L.
Proof.
  revert st. induction lines as [|line lines IH]; intros st Hst; simpl.
  - by intros [= <-].
  - intros H. apply bind_Ok in H as (st1 & H1 & H2). apply (IH st1); [|exact H2].
    destruct (parse_line_spec line st) as (st1' & Hp & Hlab & _).
    rewrite H1 in Hp. injection Hp as <-.
    intros L bits. rewrite Hlab.
    destruct (line_label line) as [L'|] eqn:HL'; [|by apply Hst].
    rewrite lookup_insert. case_decide; [|by apply Hst].
    intros _. subst. by eapply line_label_clean.
Qed.

(** Property X10. Every entry of the symbol table the parser returns maps
    its label to [format(n, '04b')] for some [n] that is at most the number
    of records; the label has no whitespace at either end and holds neither a
    colon nor a semicolon. *)
Theorem symbol_table_entries
    (assembly_code : string) (parsed_instructions : list instruction_data)
    (symbols : gmap string string) (L bits : string) :
  parse_assembly assembly_code = Ok (parsed_instructions, symbols) →
  symbols !! L = Some bits →
  (∃ n, n ≤ length parsed_instructions ∧ bits = Py.format_04b n) ∧
  Py.strip L = L ∧ Py.contains ":" L = false ∧ Py.contains ";" L = false.
Proof.
  intros Hparse HL. unfold parse_assembly in Hparse.
  apply bind_Ok in Hparse as (st & Hst & [= <- <-]).
  pose proof (parse_lines_numbered _ _ _ numbered_start Hst) as [Hcur _].
  split.
  - rewrite <- Hcur.
    apply (parse_lines_labels_formatted _ parse_start _
             ltac:(intros ? ?; simpl; by rewrite lookup_empty) Hst L bits HL).
  - apply (parse_lines_labels_clean _ parse_start _
             ltac:(intros ? ?; simpl; by rewrite lookup_empty) Hst L bits HL).
Qed.

Lemma symbol_table_entries_witness :
  (∃ n, n ≤ length [ {| address := 0; mnemonic := "NOP"; operands := "" |} ] ∧
        "0001" = Py.format_04b n) ∧
  Py.strip "END" = "END" ∧ Py.contains ":" "END" = false ∧ Py.contains ";" "END" = false.
Proof.
  apply (symbol_table_entries (unlines [ "NOP"; " END : ; the end" ])
           [ {| address := 0; mnemonic := "NOP"; operands := "" |} ]
           (<["END" := "0001"]> ∅) "END" "0001"); reflexivity.
Defined.

Lemma isspace_upper_char c : Py.isspace (Py.upper_char c) = Py.isspace c.
Proof. by destruct c as [[] [] [] [] [] [] [] []]. Qed.

Lemma all_chars_upper s :
  all_chars (λ c, negb (Py.isspace c)) (Py.upper s)
  = all_chars (λ c, negb (Py.isspace c)) s.
Proof. induction s as [|c s IH]; simpl; [done|]. by rewrite isspace_upper_char, IH. Qed.

Lemma token_no_space s :
  all_chars (λ c, negb (Py.isspace c)) (Py.token s).1 = true.
Proof.
  induction s as [|c s IH]; simpl; [done|].
  destruct (Py.isspace c) eqn:Hc; [done|].
  destruct (Py.token s) as [tok rest]. simpl in *. by rewrite Hc.
Qed.

Lemma contains_remove c s : Py.contains c (Py.remove c s) = false.
Proof.
  induction s as [|d s IH]; simpl; [done|].
  destruct (Ascii.eqb d c) eqn:Hd; [done|]. simpl. by rewrite Hd.
Qed.

Lemma contains_remove_other c d s :
  Py.contains c s = false → Py.contains c (Py.remove d s) = false.
Proof.
  induction s as [|a s IH]; simpl; [done|].
  intros H. apply orb_false_elim in H as [Ha Hs].
  destruct (Ascii.eqb a d); [by apply IH|]. simpl. by rewrite Ha, IH.
Qed.

(** The parts [split(maxsplit=1)] returns on a stripped line that is not
    empty. *)
Lemma split_maxsplit1_parts c t :
  Py.isspace c = false →
  ∃ tok operands,
    Py.getitem (Py.split_maxsplit1 (String c t)) 0 = Ok tok ∧
    (if 1 <? length (Py.split_maxsplit1 (String c t))
     then Py.getitem (Py.split_maxsplit1 (String c t)) 1 else Ok ""%string) = Ok operands ∧
    tok ≠ EmptyString ∧
    all_chars (λ c, negb (Py.isspace c)) tok = true.
Proof.
  intros Hc. unfold Py.split_maxsplit1. rewrite (lstrip_fixed _ _ Hc).
  pose proof (token_no_space (String c t)) as Htok.
  assert (Hne : (Py.token (String c t)).1 ≠ EmptyString).
  { simpl. rewrite Hc. by destruct (Py.token t). }
  destruct (Py.token (String c t)) as [tok rest]. simpl in Htok, Hne.
  destruct (Py.lstrip rest); simpl; eauto 10.
Qed.

Lemma parse_line_record line st st' :
  parse_line line st = Ok st' →
  parsed_lines st' = parsed_lines st
  ∨ ∃ r, parsed_lines st' = parsed_lines st ++ [r] ∧ clean_record r.
Proof.
  unfold parse_line.
  destruct (_ || _); [intros [= <-]; by left|].
  rewrite getitem_split_0. run_bind.
  set (body := Py.strip (Py.split_from ";" (Py.strip line)).1).
  assert (Hrest : ∀ rest labels',
    (∃ x, rest = Py.strip x) →
    (if Py.is_empty rest
     then Ok {| parsed_lines := parsed_lines st; labels := labels';
                current_address := current_address st |}
     else
       let* first := Py.getitem (Py.split_maxsplit1 rest) 0 in
       let* operands :=
         if 1 <? length (Py.split_maxsplit1 rest)
         then Py.getitem (Py.split_maxsplit1 rest) 1 else Ok ""%string in
       Ok {| parsed_lines :=
               parsed_lines st ++
                 [ {| address := current_address st; mnemonic := Py.upper first;
                      operands := Py.remove "#" (Py.remove " " operands) |} ];
             labels := labels';
             current_address := current_address st + 1 |}) = Ok st' →
    parsed_lines st' = parsed_lines st
    ∨ ∃ r, parsed_lines st' = parsed_lines st ++ [r] ∧ clean_record r).
  { intros rest labels' [x ->].
    destruct (Py.strip x) as [|c t] eqn:Hx; simpl Py.is_empty; cbv iota.
    - intros [= <-]. by left.
    - pose proof (strip_head _ _ _ Hx) as Hc.
      destruct (split_maxsplit1_parts c t Hc) as (tok & ops & -> & -> & Hne & Hsp).
      run_bind. intros [= <-]. right. eexists. split; [reflexivity|].
      repeat split; simpl.
      + by destruct tok.
      + by rewrite all_chars_upper.
      + apply upper_idem.
      + apply contains_remove_other, contains_remove.
      + apply contains_remove. }
  destruct (Py.contains ":" body) eqn:Hcolon.
  - rewrite getitem_split_0. run_bind.
    destruct (getitem_split_once_1 _ _ Hcolon) as [after ->]. run_bind.
    apply Hrest. by eexists.
  - run_bind. apply Hrest. by eexists.
Qed.

(** Property X11. In every record the parser returns, the mnemonic is not
    empty, holds no whitespace and no lower-case letter, and the operand
    string holds neither a space nor the mark [#]. *)
Theorem parsed_records_are_clean
    (assembly_code : string) (parsed_instructions : list instruction_data)
    (symbols : gmap string string) (r : instruction_data) :
  parse_assembly assembly_code = Ok (parsed_instructions, symbols) →
  r ∈ parsed_instructions →
  mnemonic r ≠ EmptyString ∧
  all_chars (λ c, negb (Py.isspace c)) (mnemonic r) = true ∧
  Py.upper (mnemonic r) = mnemonic r ∧
  Py.contains " " (operands r) = false ∧
  Py.contains "#" (operands r) = false.
Proof.
  intros Hparse Hr. unfold parse_assembly in Hparse.
  apply bind_Ok in Hparse as (st & Hst & [= <- _]).
  assert (Hall : ∀ lines st0 st1,
    Forall clean_record (parsed_lines st0) →
    parse_lines lines st0 = Ok st1 → Forall clean_record (parsed_lines st1)).
  { induction lines as [|line lines IH]; intros st0 st1 H0; simpl.
    - by intros [= <-].
    - intros H. apply bind_Ok in H as (st' & H1 & H2). apply (IH st'); [|done].
      destruct (parse_line_record _ _ _ H1) as [-> | (r' & -> & Hr')]; [done|].
      apply Forall_app. split; [done|]. by constructor. }
  pose proof (Hall _ parse_start _ (Forall_nil_2 _) Hst) as Hclean.
  by apply (proj1 (Forall_forall _ _) Hclean).
Qed.

Lemma parsed_records_are_clean_witness :
  let r := {| address := 0; mnemonic := "LDI"; operands := "R0,01b" |} in
  mnemonic r ≠ EmptyString ∧
  all_chars (λ c, negb (Py.isspace c)) (mnemonic r) = true ∧
  Py.upper (mnemonic r) = mnemonic r ∧
  Py.contains " " (operands r) = false ∧
  Py.contains "#" (operands r) = false.
Proof.
  intros r.
  apply (parsed_records_are_clean "  ldi   R0 , #01b ; load" [ r ] ∅ r);
    [reflexivity | left].
Defined.

(** ** The text and its lines *)

Lemma append_assoc (a b c : string) : (a +:+ b) +:+ c = a +:+ (b +:+ c).
Proof.
  induction a as [|x a IH]; [done|].
  change (String x ((a +:+ b) +:+ c) = String x (a +:+ (b +:+ c))). by rewrite IH.
Qed.

Lemma append_empty_r (a : string) : a +:+ EmptyString = a.
Proof.
  induction a as [|x a IH]; [done|].
  change (String x (a +:+ EmptyString) = String x a). by rewrite IH.
Qed.

(** The loop body looks at a line through [strip] only. *)
Lemma parse_line_strip l1 l2 st :
  Py.strip l1 = Py.strip l2 → parse_line l1 st = parse_line l2 st.
Proof. intros H. unfold parse_line. cbv zeta. by rewrite H. Qed.

Lemma parse_line_blank l st : Py.strip l = EmptyString → parse_line l st = Ok st.
Proof. intros H. unfold parse_line. cbv zeta. by rewrite H. Qed.

Lemma parse_line_skipped l st : line_body l = None → parse_line l st = Ok st.
Proof.
  unfold line_body, parse_line. cbv zeta. by destruct (_ || _).
Qed.

Lemma rstrip_append_blank p w :
  Py.lstrip w = EmptyString → Py.rstrip (p +:+ w) = Py.rstrip p.
Proof.
  intros Hw. induction p as [|a p IH].
  - change (EmptyString +:+ w) with w. simpl.
    induction w as [|c w IHw]; [done|]. simpl in *.
    destruct (Py.isspace c) eqn:Hc; [|discriminate]. by rewrite (IHw Hw).
  - change (String a p +:+ w) with (String a (p +:+ w)). simpl. by rewrite IH.
Qed.

Lemma strip_append_blank p w :
  Py.lstrip w = EmptyString → Py.strip (p +:+ w) = Py.strip p.
Proof.
  intros Hw. unfold Py.strip. induction p as [|a p IH].
  - change (EmptyString +:+ w) with w. by rewrite Hw.
  - change (String a p +:+ w) with (String a (p +:+ w)). simpl.
    destruct (Py.isspace a) eqn:Ha; [exact IH|].
    rewrite !(rstrip_cons _ _ Ha). f_equal. by apply rstrip_append_blank.
Qed.

Lemma rstrip_empty_lstrip s : Py.rstrip s = EmptyString → Py.lstrip s = EmptyString.
Proof.
  induction s as [|c s IH]; simpl; [done|].
  destruct (Py.rstrip s); [|discriminate].
  destruct (Py.isspace c); [intros _; by apply IH | discriminate].
Qed.

Lemma lstrip_first_piece sep s :
  Py.lstrip s = EmptyString → Py.lstrip (Py.split_from sep s).1 = EmptyString.
Proof.
  induction s as [|c s IH]; simpl; [done|].
  destruct (Py.isspace c) eqn:Hc; [|discriminate]. intros H. specialize (IH H).
  destruct (Py.split_from sep s) as [piece pieces]. simpl in IH.
  destruct (Ascii.eqb c sep); simpl; [done|]. by rewrite Hc.
Qed.

Lemma strip_blank s : Py.lstrip s = EmptyString → Py.strip s = EmptyString.
Proof. intros H. unfold Py.strip. by rewrite H. Qed.

Lemma split_unfold sep s :
  Py.split sep s = (Py.split_from sep s).1 :: (Py.split_from sep s).2.
Proof. unfold Py.split. by destruct (Py.split_from sep s). Qed.

Lemma parse_lines_cons line lines st :
  parse_lines (line :: lines) st = let* st' := parse_line line st in parse_lines lines st'.
Proof. done. Qed.

Lemma isspace_newline : Py.isspace newline = true.
Proof. done. Qed.

Lemma split_from_cons sep c s :
  Py.split_from sep (String c s) =
  if Ascii.eqb c sep
  then (EmptyString, (Py.split_from sep s).1 :: (Py.split_from sep s).2)
  else (String c (Py.split_from sep s).1, (Py.split_from sep s).2).
Proof. simpl. by destruct (Py.split_from sep s). Qed.

Lemma isspace_not_newline c : Py.isspace c = false → Ascii.eqb c newline = false.
Proof. intros Hc. destruct (Ascii.eqb_spec c newline) as [-> |]; [discriminate Hc | done]. Qed.

(** Whitespace at the start of the text does not change what the loop
    computes. *)
Lemma parse_lines_lstrip t st :
  parse_lines (Py.split newline (Py.lstrip t)) st = parse_lines (Py.split newline t) st.
Proof.
  induction t as [|c t IH]; [done|]. simpl Py.lstrip.
  destruct (Py.isspace c) eqn:Hc; [|done].
  rewrite IH, !split_unfold, split_from_cons.
  destruct (Ascii.eqb c newline); cbn [fst snd]; rewrite !parse_lines_cons.
  - by rewrite (parse_line_blank EmptyString).
  - rewrite (parse_line_strip (String c (Py.split_from newline t).1)
               (Py.split_from newline t).1); [done|].
    unfold Py.strip. simpl. by rewrite Hc.
Qed.

(** Whitespace at the end of the text does not either; the statement
    carries a prefix [p] of the first line through the induction. *)
Lemma parse_lines_rstrip t p st :
  parse_lines ((p +:+ (Py.split_from newline (Py.rstrip t)).1)
                 :: (Py.split_from newline (Py.rstrip t)).2) st
  = parse_lines ((p +:+ (Py.split_from newline t).1) :: (Py.split_from newline t).2) st.
Proof.
  revert p st. induction t as [|c t IH]; intros p st; [done|].
  simpl Py.rstrip. rewrite (split_from_cons newline c t).
  destruct (Py.rstrip t) as [|d r] eqn:Hr.
  - (* what follows [c] is whitespace *)
    pose proof (rstrip_empty_lstrip _ Hr) as Hblank.
    pose proof (lstrip_first_piece newline _ Hblank) as Hh.
    assert (Hrest : ∀ st0, parse_lines (Py.split_from newline t).2 st0 = Ok st0).
    { intros st0. specialize (IH EmptyString st0).
      rewrite !parse_lines_cons in IH.
      rewrite (parse_line_blank (EmptyString +:+ (Py.split_from newline EmptyString).1))
        in IH by done.
      rewrite (parse_line_blank (EmptyString +:+ (Py.split_from newline t).1))
        in IH by (by apply strip_blank).
      symmetry. exact IH. }
    set (h := (Py.split_from newline t).1) in *.
    set (rest := (Py.split_from newline t).2) in *.
    destruct (Py.isspace c) eqn:Hc.
    + cbn [Py.split_from fst snd].
      destruct (Ascii.eqb c newline); cbn [fst snd];
        rewrite !parse_lines_cons, !append_empty_r.
      * destruct (parse_line p st) as [st1|e]; run_bind; [|done].
        rewrite parse_lines_cons, (parse_line_blank h) by (by apply strip_blank).
        run_bind. by rewrite Hrest.
      * rewrite (parse_line_strip (p +:+ String c h) p).
        -- destruct (parse_line p st) as [st1|e]; run_bind; [|done]. by rewrite Hrest.
        -- apply strip_append_blank. simpl. by rewrite Hc.
    + rewrite (isspace_not_newline _ Hc).
      rewrite (split_from_cons newline c EmptyString), (isspace_not_newline _ Hc).
      cbn [Py.split_from fst snd]. rewrite !parse_lines_cons.
      rewrite (parse_line_strip (p +:+ String c h) (p +:+ String c EmptyString)).
      * destruct (parse_line _ st) as [st1|e]; run_bind; [|done]. by rewrite Hrest.
      * change (String c h) with (String c EmptyString +:+ h).
        rewrite <- append_assoc. by apply strip_append_blank.
  - rewrite (split_from_cons newline c (String d r)).
    destruct (Ascii.eqb c newline); cbn [fst snd].
    + rewrite !parse_lines_cons.
      destruct (parse_line (p +:+ EmptyString) st) as [st1|e]; run_bind; [|done].
      exact (IH EmptyString st1).
    + specialize (IH (p +:+ String c EmptyString) st).
      rewrite !append_assoc in IH. exact IH.
Qed.

(** The [strip] of the whole text changes nothing: the function computes
    what its loop computes on the lines of the text as it is. *)
Lemma parse_assembly_lines (assembly_code : string) :
  parse_assembly assembly_code =
  let* st := parse_lines (Py.split newline assembly_code) parse_start in
  Ok (parsed_lines st, labels st).
Proof.
  unfold parse_assembly, source_lines, Py.strip.
  rewrite split_unfold.
  pose proof (parse_lines_rstrip (Py.lstrip assembly_code) EmptyString parse_start) as H.
  change (EmptyString +:+ ?x) with x in H.
  change "010"%char with newline.
  by rewrite H, <- split_unfold, parse_lines_lstrip.
Qed.

Lemma split_from_no_sep sep a :
  Py.contains sep a = false → Py.split_from sep a = (a, []).
Proof.
  induction a as [|c a IH]; [done|]. simpl.
  intros H. apply orb_false_elim in H as [Hc Ha]. by rewrite (IH Ha), Hc.
Qed.

Lemma split_from_append_sep sep a b :
  Py.contains sep a = false →
  Py.split_from sep (a +:+ String sep b) = (a, Py.split sep b).
Proof.
  induction a as [|c a IH].
  - intros _. change (EmptyString +:+ String sep b) with (String sep b).
    rewrite split_from_cons, Ascii.eqb_refl. by rewrite split_unfold.
  - simpl. intros H. apply orb_false_elim in H as [Hc Ha].
    by rewrite (IH Ha), Hc.
Qed.

Lemma split_unlines lines :
  lines ≠ [] →
  Forall (λ l, Py.contains newline l = false) lines →
  Py.split newline (unlines lines) = lines.
Proof.
  induction lines as [|l lines IH]; [done|]. intros _ Hall.
  apply Forall_cons in Hall as [Hl Hall].
  destruct lines as [|l' lines].
  - simpl. unfold Py.split. by rewrite (split_from_no_sep _ _ Hl).
  - change (unlines (l :: l' :: lines)) with (l +:+ String newline (unlines (l' :: lines))).
    unfold Py.split at 1. rewrite (split_from_append_sep _ _ _ Hl).
    by rewrite IH.
Qed.

(** On a text given by its lines, the function runs the loop over these
    lines. *)
Lemma parse_assembly_unlines lines :
  Forall (λ l, Py.contains newline l = false) lines →
  parse_assembly (unlines lines) =
  let* st := parse_lines lines parse_start in Ok (parsed_lines st, labels st).
Proof.
  intros Hall. rewrite parse_assembly_lines.
  destruct lines as [|l lines]; [done|]. by rewrite split_unlines.
Qed.

(** Property X12. The [strip] of the whole text changes nothing: the
    parser returns what its loop computes on the lines of the text as it is
    given, whitespace and empty lines at both ends included. *)
Theorem parse_assembly_ignores_surrounding_whitespace (assembly_code : string) :
  parse_assembly assembly_code =
  let* st := parse_lines (Py.split newline assembly_code) parse_start in
  Ok (parsed_lines st, labels st).
Proof. apply parse_assembly_lines. Qed.

(** Property X13. A line that is blank, or that starts (after its leading
    whitespace) with the comment mark or with the directive prefix [.EQU],
    may be put anywhere in a program: the parser returns the same records and
    the same symbol table, and the whole run has the same outcome. *)
Theorem skipped_lines_change_nothing (before after : list string) (line : string) :
  Forall (λ l, Py.contains newline l = false) (before ++ line :: after) →
  Py.strip line = EmptyString
  ∨ Py.startswith (Py.strip line) ";" = true
  ∨ Py.startswith (Py.strip line) ".EQU" = true →
  parse_assembly (unlines (before ++ line :: after)) = parse_assembly (unlines (before ++ after)) ∧
  main (unlines (before ++ line :: after)) = main (unlines (before ++ after)).
Proof.
  intros Hall Hskip.
  assert (Hparse : parse_assembly (unlines (before ++ line :: after))
                   = parse_assembly (unlines (before ++ after))).
  { assert (Hall' : Forall (λ l, Py.contains newline l = false) (before ++ after)).
    { apply Forall_app in Hall as [Hb Ha]. apply Forall_cons in Ha as [_ Ha].
      by apply Forall_app. }
    rewrite !parse_assembly_unlines by done.
    rewrite !parse_lines_app.
    destruct (parse_lines before parse_start) as [st|e]; run_bind; [|done].
    rewrite parse_lines_cons, parse_line_skipped; [reflexivity|].
    unfold line_body. cbv zeta.
    destruct Hskip as [-> | [-> | ->]]; [done | by rewrite orb_true_r | by rewrite orb_true_r]. }
  split; [exact Hparse|]. unfold main. by rewrite Hparse.
Qed.

Lemma skipped_lines_change_nothing_witness :
  parse_assembly (unlines ([ "NOP" ] ++ ".EQU R0, 00b" :: [ "HLT" ]))
    = parse_assembly (unlines ([ "NOP" ] ++ [ "HLT" ])) ∧
  main (unlines ([ "NOP" ] ++ ".EQU R0, 00b" :: [ "HLT" ]))
    = main (unlines ([ "NOP" ] ++ [ "HLT" ])).
Proof.
  apply (skipped_lines_change_nothing [ "NOP" ] [ "HLT" ] ".EQU R0, 00b").
  - repeat constructor.
  - right. right. reflexivity.
Defined.

(** ** Comments *)

Lemma parse_line_body l1 l2 st :
  line_body l1 = line_body l2 → parse_line l1 st = parse_line l2 st.
Proof.
  unfold line_body, parse_line. cbv zeta.
  destruct (_ || _), (_ || _); try discriminate; [done|].
  intros [= H]. rewrite !getitem_split_0. run_bind. by rewrite H.
Qed.

Lemma rstrip_cons_space c s :
  Py.isspace c = true →
  Py.rstrip (String c s) =
  match Py.rstrip s with EmptyString => EmptyString | r => String c r end.
Proof. intros Hc. simpl. destruct (Py.rstrip s); by rewrite ?Hc. Qed.

Lemma lstrip_cons_space c s : Py.isspace c = true → Py.lstrip (String c s) = Py.lstrip s.
Proof. intros Hc. simpl. by rewrite Hc. Qed.

Lemma lstrip_rstrip s : Py.rstrip (Py.lstrip s) = Py.lstrip (Py.rstrip s).
Proof.
  induction s as [|c s IH]; [done|].
  destruct (Py.isspace c) eqn:Hc.
  - rewrite (lstrip_cons_space _ _ Hc), (rstrip_cons_space _ _ Hc), IH.
    destruct (Py.rstrip s); [done|]. by rewrite (lstrip_cons_space _ _ Hc).
  - by rewrite (lstrip_fixed _ _ Hc), (rstrip_cons _ _ Hc), (lstrip_fixed _ _ Hc).
Qed.

Lemma lstrip_append_blank l z :
  Py.lstrip l = EmptyString → Py.lstrip (l +:+ z) = Py.lstrip z.
Proof.
  induction l as [|c l IH]; [done|]. simpl.
  change (String c l +:+ z) with (String c (l +:+ z)). simpl.
  destruct (Py.isspace c); [exact IH | discriminate].
Qed.

Lemma lstrip_append l z a x :
  Py.lstrip l = String a x → Py.lstrip (l +:+ z) = String a x +:+ z.
Proof.
  induction l as [|c l IH]; [discriminate|]. simpl.
  change (String c l +:+ z) with (String c (l +:+ z)). simpl.
  destruct (Py.isspace c); [exact IH|]. by intros [= <- <-].
Qed.

Lemma rstrip_append_mark u k v :
  Py.isspace k = false →
  Py.rstrip (u +:+ String k v) = u +:+ String k (Py.rstrip v).
Proof.
  intros Hk. induction u as [|b u IH].
  - change (EmptyString +:+ ?y) with y. by rewrite rstrip_cons.
  - change (String b u +:+ ?y) with (String b (u +:+ y)). simpl. rewrite IH.
    destruct u; done.
Qed.

Lemma first_piece_append_sep sep u v :
  (Py.split_from sep (u +:+ String sep v)).1 = (Py.split_from sep u).1.
Proof.
  induction u as [|b u IH].
  - change (EmptyString +:+ ?y) with y. by rewrite split_from_cons, Ascii.eqb_refl.
  - change (String b u +:+ ?y) with (String b (u +:+ y)).
    rewrite !split_from_cons. destruct (Ascii.eqb b sep); [done|]. cbn [fst]. by rewrite IH.
Qed.

Lemma rstrip_blank s : Py.lstrip s = EmptyString → Py.rstrip s = EmptyString.
Proof.
  intros H. pose proof (lstrip_rstrip s) as Hc. rewrite H in Hc. simpl in Hc.
  destruct (Py.rstrip s) as [|d r] eqn:Hr; [done|].
  (* the first character of a string stripped on the right, were it a blank,
     would be followed by one that is not *)
  exfalso. clear Hc. revert d r Hr.
  induction s as [|c s IH]; intros d r; [discriminate|].
  simpl in H. destruct (Py.isspace c) eqn:Hc; [|discriminate].
  rewrite (rstrip_cons_space _ _ Hc).
  destruct (Py.rstrip s) as [|d' r'] eqn:Hr'; [discriminate|].
  intros _. by eapply (IH H).
Qed.

(** Cutting at the first [sep] and stripping on the right commute with a
    strip on the right done before. *)
Lemma rstrip_first_piece_rstrip sep s :
  Py.isspace sep = false →
  Py.rstrip (Py.split_from sep (Py.rstrip s)).1 = Py.rstrip (Py.split_from sep s).1.
Proof.
  intros Hsep. induction s as [|c s IH]; [done|].
  rewrite (split_from_cons sep c s).
  destruct (Py.isspace c) eqn:Hc.
  - assert (Hne : Ascii.eqb c sep = false).
    { destruct (Ascii.eqb_spec c sep) as [-> |]; [congruence | done]. }
    rewrite Hne, (rstrip_cons_space _ _ Hc). cbn [fst].
    destruct (Py.rstrip s) as [|d r] eqn:Hr.
    + pose proof (lstrip_first_piece sep _ (rstrip_empty_lstrip _ Hr)) as Hblank.
      rewrite (rstrip_cons_space _ _ Hc), (rstrip_blank _ Hblank). done.
    + rewrite split_from_cons, Hne. cbn [fst].
      by rewrite !(rstrip_cons_space _ _ Hc), IH.
  - rewrite (rstrip_cons _ _ Hc), split_from_cons.
    destruct (Ascii.eqb c sep); [done|]. cbn [fst].
    by rewrite !(rstrip_cons _ _ Hc), IH.
Qed.

Lemma strip_first_piece_rstrip sep s :
  Py.isspace sep = false →
  Py.strip (Py.split_from sep (Py.rstrip s)).1 = Py.strip (Py.split_from sep s).1.
Proof.
  intros Hsep. unfold Py.strip. by rewrite !lstrip_rstrip, rstrip_first_piece_rstrip.
Qed.

Lemma contains_append c a b :
  Py.contains c (a +:+ b) = Py.contains c a || Py.contains c b.
Proof.
  induction a as [|d a IH]; [done|].
  change (String d a +:+ b) with (String d (a +:+ b)). simpl. by rewrite IH, orb_assoc.
Qed.

(** A prefix made of characters that are neither whitespace nor the
    comment mark is found in a line exactly when it is found in the line
    with a comment appended. *)
Lemma prefix_comment p u r :
  all_chars (λ c, negb (Py.isspace c) && negb (Ascii.eqb c ";")) p = true →
  String.prefix p (u +:+ String ";" r) = String.prefix p (Py.rstrip u).
Proof.
  revert u. induction p as [|a p IH]; intros u; [by destruct u, (Py.rstrip _)|].
  simpl. intros H. apply andb_prop in H as [Ha Hp]. apply andb_prop in Ha as [Ha1 Ha2].
  apply negb_true_iff in Ha1, Ha2.
  destruct u as [|b u].
  - change (EmptyString +:+ ?y) with y. simpl.
    destruct (ascii_dec a ";") as [-> |]; [discriminate Ha2 | done].
  - change (String b u +:+ ?y) with (String b (u +:+ y)). cbn [String.prefix].
    destruct (ascii_dec a b) as [<- | Hne].
    + rewrite (rstrip_cons _ _ Ha1). cbn [String.prefix].
      destruct (ascii_dec a a); [by apply IH | done].
    + destruct (Py.isspace b) eqn:Hb.
      * rewrite (rstrip_cons_space _ _ Hb). destruct (Py.rstrip u); [done|].
        cbn [String.prefix]. by destruct (ascii_dec a b).
      * rewrite (rstrip_cons _ _ Hb). cbn [String.prefix]. by destruct (ascii_dec a b).
Qed.

(** A comment appended to a line does not change what the loop keeps of
    the line. *)
Lemma line_body_comment line comment :
  line_body (line +:+ String ";" comment) = line_body line.
Proof.
  destruct (Py.lstrip line) as [|a x] eqn:Hx.
  - assert (H1 : Py.strip (line +:+ String ";" comment) = String ";" (Py.rstrip comment)).
    { unfold Py.strip. rewrite (lstrip_append_blank _ _ Hx).
      by rewrite (lstrip_fixed ";" comment eq_refl), (rstrip_cons ";" comment eq_refl). }
    assert (H0 : Py.strip line = EmptyString) by (by apply strip_blank).
    unfold line_body. cbv zeta. rewrite H1, H0.
    unfold Py.startswith. cbn [Py.is_empty String.prefix orb].
    destruct (ascii_dec ";" ";"); [|done]. by destruct (Py.rstrip comment).
  - pose proof (lstrip_head _ _ _ Hx) as Ha.
    assert (H1 : Py.strip (line +:+ String ";" comment)
                 = String a x +:+ String ";" (Py.rstrip comment)).
    { unfold Py.strip. rewrite (lstrip_append _ _ _ _ Hx).
      by rewrite (rstrip_append_mark (String a x) ";" comment eq_refl). }
    assert (H0 : Py.strip line = Py.rstrip (String a x)).
    { unfold Py.strip. by rewrite Hx. }
    unfold line_body. cbv zeta. rewrite H1, H0.
    rewrite first_piece_append_sep, (strip_first_piece_rstrip ";" _ eq_refl).
    unfold Py.startswith.
    rewrite (prefix_comment ".EQU" (String a x) (Py.rstrip comment) eq_refl).
    rewrite (rstrip_cons _ _ Ha).
    change (String a x +:+ String ";" (Py.rstrip comment))
      with (String a (x +:+ String ";" (Py.rstrip comment))).
    cbn [Py.is_empty String.prefix].
    assert (Hempty : ∀ s, String.prefix EmptyString s = true) by (by intros []).
    by rewrite !Hempty.
Qed.

(** Property X14. A comment appended to a line of a program, from a
    semicolon to the end of the line, changes neither what the parser returns
    nor the outcome of the whole run. *)
Theorem inline_comment_changes_nothing
    (before after : list string) (line comment : string) :
  Forall (λ l, Py.contains newline l = false) (before ++ line :: after) →
  Py.contains newline comment = false →
  parse_assembly (unlines (before ++ (line +:+ String ";" comment) :: after))
    = parse_assembly (unlines (before ++ line :: after)) ∧
  main (unlines (before ++ (line +:+ String ";" comment) :: after))
    = main (unlines (before ++ line :: after)).
Proof.
  intros Hall Hcomment.
  assert (Hparse :
    parse_assembly (unlines (before ++ (line +:+ String ";" comment) :: after))
    = parse_assembly (unlines (before ++ line :: after))).
  { assert (Hall' : Forall (λ l, Py.contains newline l = false)
                      (before ++ (line +:+ String ";" comment) :: after)).
    { apply Forall_app in Hall as [Hb Ha]. apply Forall_cons in Ha as [Hl Ha].
      apply Forall_app. split; [done|]. constructor; [|done].
      by rewrite contains_append, Hl. }
    rewrite !parse_assembly_unlines by done.
    rewrite !parse_lines_app.
    destruct (parse_lines before parse_start) as [st|e]; run_bind; [|done].
    rewrite !parse_lines_cons.
    by rewrite (parse_line_body _ line st (line_body_comment line comment)). }
  split; [exact Hparse|]. unfold main. by rewrite Hparse.
Qed.

Lemma inline_comment_changes_nothing_witness :
  parse_assembly (unlines ([ "L: DEC R1" ] ++ ("JZ L " +:+ String ";" " loop; twice") :: []))
    = parse_assembly (unlines ([ "L: DEC R1" ] ++ "JZ L " :: [])) ∧
  main (unlines ([ "L: DEC R1" ] ++ ("JZ L " +:+ String ";" " loop; twice") :: []))
    = main (unlines ([ "L: DEC R1" ] ++ "JZ L " :: [])).
Proof.
  apply (inline_comment_changes_nothing [ "L: DEC R1" ] [] "JZ L " " loop; twice").
  - repeat constructor.
  - reflexivity.
Defined.

(** ** Complete runs *)

Lemma main_Ok assembly_code out :
  main assembly_code = Ok out ↔
  ∃ parsed_instructions symbols words hexes,
    parse_assembly assembly_code = Ok (parsed_instructions, symbols) ∧
    translate_to_machine_code parsed_instructions symbols = Ok words ∧
    convert_binary_to_hex words = Ok hexes ∧
    out = {| run_labels := symbols; run_binary := words; run_hex := hexes;
             run_warning := 16 <? length hexes |}.
Proof.
  unfold main. split.
  - intros H. apply bind_Ok in H as ([recs symbols] & Hparse & H).
    apply bind_Ok in H as (words & Hwords & H).
    apply bind_Ok in H as (hexes & Hhexes & [= <-]).
    by exists recs, symbols, words, hexes.
  - intros (recs & symbols & words & hexes & -> & Hwords & Hhexes & ->).
    run_bind. cbn [fst snd]. rewrite Hwords. run_bind. rewrite Hhexes. done.
Qed.

(** Property X15. A program of fewer than 16 instructions that the
    encoder translates runs to its end: the codec accepts every word, one
    hexadecimal text per instruction is produced, and no warning is given. *)
Theorem short_program_runs
    (assembly_code : string) (parsed_instructions : list instruction_data)
    (symbols : gmap string string) (words : list string) :
  parse_assembly assembly_code = Ok (parsed_instructions, symbols) →
  length parsed_instructions < 16 →
  translate_to_machine_code parsed_instructions symbols = Ok words →
  ∃ hexes,
    main assembly_code =
      Ok {| run_labels := symbols; run_binary := words; run_hex := hexes;
            run_warning := false |} ∧
    length hexes = length parsed_instructions.
Proof.
  intros Hparse Hshort Hwords.
  pose proof (words_of_short_program _ _ _ _ Hparse Hshort Hwords) as Hlen.
  destruct (convert_binary_to_hex_words _ _ _ _ Hparse Hwords Hlen) as [hexes Hhexes].
  assert (Hn : length hexes = length parsed_instructions).
  { apply translate_to_machine_code_Ok, Forall2_length in Hwords.
    apply convert_binary_to_hex_Ok, Forall2_length in Hhexes. congruence. }
  exists hexes. split; [|exact Hn].
  apply main_Ok. exists parsed_instructions, symbols, words, hexes.
  do 3 (split; [done|]). f_equal. symmetry. apply Nat.ltb_ge. lia.
Qed.

Lemma short_program_runs_witness :
  ∃ symbols words hexes,
    main jumps_program =
      Ok {| run_labels := symbols; run_binary := words; run_hex := hexes;
            run_warning := false |} ∧
    length hexes = 4.
Proof.
  assert (Hparse : ∃ records symbols words,
            parse_assembly jumps_program = Ok (records, symbols) ∧
            length records = 4 ∧
            translate_to_machine_code records symbols = Ok words).
  { eexists _, _, _. split; [vm_compute; reflexivity|].
    split; [reflexivity | vm_compute; reflexivity]. }
  destruct Hparse as (records & symbols & words & Hparse & Hlen & Hwords).
  destruct (short_program_runs jumps_program records symbols words Hparse) as (hexes & Hmain & Hn).
  - rewrite Hlen. lia.
  - exact Hwords.
  - exists symbols, words, hexes. split; [exact Hmain|]. by rewrite Hn.
Defined.

(** Property X16. After a complete run, the word at position [i] is the
    opcode of the mnemonic of the instruction at position [i] followed by an
    operand field of four binary digits, and the hexadecimal text at position
    [i] is the hexadecimal digit of the opcode followed by that of the
    operand field. *)
Theorem rom_line_of_instruction
    (assembly_code : string) (out : run)
    (parsed_instructions : list instruction_data) (symbols : gmap string string)
    (i : nat) (r : instruction_data) :
  main assembly_code = Ok out →
  parse_assembly assembly_code = Ok (parsed_instructions, symbols) →
  parsed_instructions !! i = Some r →
  ∃ info field,
    INSTRUCTION_SET !! mnemonic r = Some info ∧
    all_binary field = true ∧ String.length field = 4 ∧
    run_binary out !! i = Some (opcode info +:+ field) ∧
    run_hex out !! i =
      Some (String (Py.hex_digit (binary_value (opcode info) 0))
              (String (Py.hex_digit (binary_value field 0)) EmptyString)).
Proof.
  intros Hmain Hparse Hi.
  apply main_Ok in Hmain as (recs & symbols' & words & hexes & Hparse' & Hwords & Hhexes & ->).
  rewrite Hparse in Hparse'. injection Hparse' as <- <-. simpl.
  apply translate_to_machine_code_Ok in Hwords.
  apply convert_binary_to_hex_Ok in Hhexes.
  destruct (Forall2_lookup_l _ _ _ _ _ Hwords Hi) as (w & Hw & Henc).
  destruct (Forall2_lookup_l _ _ _ _ _ Hhexes Hw) as (h & Hh & Hhex).
  pose proof (encode_instruction_binary _ _ _
                (parse_assembly_labels_binary _ _ _ Hparse) Henc) as Hbin.
  destruct (encode_instruction_Ok _ _ _ Henc) as (info & field & Hinfo & ->).
  rewrite all_binary_append in Hbin. apply andb_prop in Hbin as [Hbo Hbf].
  assert (Hlen : String.length field = 4).
  { unfold hex_of_word in Hhex.
    destruct (String.length (opcode info +:+ field) =? 8) eqn:E; [|discriminate Hhex].
    apply Nat.eqb_eq in E. rewrite length_append, (opcode_length _ _ Hinfo) in E. lia. }
  exists info, field. do 4 (split; [done|]).
  rewrite Hh. f_equal.
  rewrite hex_of_word_nibbles in Hhex.
  - by injection Hhex.
  - apply nibble_cases; [done|]. by eapply opcode_length.
  - by apply nibble_cases.
Qed.

Lemma rom_line_of_instruction_witness :
  ∃ info field,
    INSTRUCTION_SET !! "LDI" = Some info ∧
    all_binary field = true ∧ String.length field = 4 ∧
    [ "01010011" ] !! 0 = Some (opcode info +:+ field) ∧
    [ "53" ] !! 0 =
      Some (String (Py.hex_digit (binary_value (opcode info) 0))
              (String (Py.hex_digit (binary_value field 0)) EmptyString)).
Proof.
  apply (rom_line_of_instruction "LDI R0,#11b"
           {| run_labels := ∅; run_binary := [ "01010011" ]; run_hex := [ "53" ];
              run_warning := false |}
           [ {| address := 0; mnemonic := "LDI"; operands := "R0,11b" |} ] ∅ 0
           {| address := 0; mnemonic := "LDI"; operands := "R0,11b" |});
    reflexivity.
Defined.

(** The loop only appends records and only moves the counter forward. *)
Lemma parse_lines_extends lines st st' :
  numbered st →
  parse_lines lines st = Ok st' →
  ∃ new, parsed_lines st' = parsed_lines st ++ new ∧
         Forall (λ r, length (parsed_lines st) ≤ address r) new.
Proof.
  revert st. induction lines as [|line lines IH]; intros st Hn; simpl.
  - intros [= <-]. exists []. by rewrite app_nil_r.
  - intros H. apply bind_Ok in H as (st1 & H1 & H2).
    pose proof (parse_line_numbered _ _ _ Hn H1) as Hn1.
    destruct (IH st1 Hn1 H2) as (new & Hnew & Hadr).
    destruct (parse_line_spec line st) as (st1' & Hp & _ & Hrec).
    rewrite H1 in Hp. injection Hp as <-.
    destruct Hrec as [[Hrecs _] | (tok & ops & Hrecs & _)]; rewrite Hrecs in *.
    + by exists new.
    + eexists (_ :: new). rewrite Hnew, <- app_assoc. split; [done|].
      destruct Hn as [Hcur _]. constructor; [simpl; lia|].
      eapply Forall_impl; [exact Hadr|]. intros r. rewrite length_app. simpl. lia.
Qed.

(** Property X17. Lines added at the end of a program keep what the
    parser returned for the program: the records come first, unchanged, the
    records of the added lines follow with the addresses that come next, and
    a label that no added line defines keeps its entry. *)
Theorem parse_assembly_of_a_longer_program
    (lines1 lines2 : list string) (parsed1 : list instruction_data)
    (symbols1 : gmap string string) :
  Forall (λ l, Py.contains newline l = false) (lines1 ++ lines2) →
  parse_assembly (unlines lines1) = Ok (parsed1, symbols1) →
  ∃ parsed2 symbols,
    parse_assembly (unlines (lines1 ++ lines2)) = Ok (parsed1 ++ parsed2, symbols) ∧
    Forall (λ r, length parsed1 ≤ address r) parsed2 ∧
    ∀ L, (∀ line, line ∈ lines2 → line_label line ≠ Some L) →
         symbols !! L = symbols1 !! L.
Proof.
  intros Hall H1.
  apply Forall_app in Hall as Hboth. destruct Hboth as [Hall1 Hall2].
  rewrite parse_assembly_unlines in H1 by done.
  rewrite parse_assembly_unlines by done.
  apply bind_Ok in H1 as (st1 & Hst1 & [= <- <-]).
  rewrite parse_lines_app, Hst1. run_bind.
  destruct (parse_lines_total lines2 st1) as [st2 Hst2]. rewrite Hst2. run_bind.
  pose proof (parse_lines_numbered _ _ _ numbered_start Hst1) as Hn1.
  destruct (parse_lines_extends _ _ _ Hn1 Hst2) as (new & Hnew & Hadr).
  exists new, (labels st2). rewrite Hnew. split; [done|]. split; [done|].
  intros L HL. by eapply parse_lines_labels_other.
Qed.

Lemma parse_assembly_of_a_longer_program_witness :
  ∃ parsed2 symbols,
    parse_assembly (unlines ([ "A: NOP" ] ++ [ "B: JMP A" ]))
      = Ok ([ {| address := 0; mnemonic := "NOP"; operands := "" |} ] ++ parsed2, symbols) ∧
    Forall (λ r, length [ {| address := 0; mnemonic := "NOP"; operands := "" |} ] ≤ address r)
      parsed2 ∧
    ∀ L, (∀ line, line ∈ [ "B: JMP A" ] → line_label line ≠ Some L) →
         symbols !! L = (<["A" := "0000"]> ∅ : gmap string string) !! L.
Proof.
  apply (parse_assembly_of_a_longer_program [ "A: NOP" ] [ "B: JMP A" ]
           [ {| address := 0; mnemonic := "NOP"; operands := "" |} ] (<["A" := "0000"]> ∅)).
  - repeat constructor.
  - reflexivity.
Defined.
